(** * git-aicommit: the streaming response assembler of [main.go]

    A shallow embedding of [streamCommitMessage], [runCommit] and
    [createCommit] of [src/main.go], together with the parts of the Go
    libraries they call ([unicode/utf8], [strings], [encoding/json]).

    Go strings are byte sequences: they are embedded as [string], one [ascii]
    per byte.  A [rune] is a Unicode code point, embedded as [Z]. *)

From Stdlib Require Import ZArith List Bool Lia.
From Stdlib Require Import Strings.Ascii Strings.String.
From Stdlib Require Import Floats.SpecFloat.
Import ListNotations.

Local Open Scope string_scope.
Local Open Scope Z_scope.

(** ** Bytes and runes *)

Definition rune := Z.

Definition byte_val (c : ascii) : Z := Z.of_N (N_of_ascii c).

(** Go's [byte(x)] conversion: the low eight bits. *)
Definition to_byte (z : Z) : ascii := ascii_of_N (Z.to_N (z mod 256)).

Definition str1 (c : ascii) : string := String c EmptyString.

(** The double quote (byte 34), the line feed (byte 10) and friends. *)
Definition dquote : ascii := "034"%char.
Definition LF : ascii := "010"%char.
Definition DQ : string := str1 dquote.
Definition NL : string := str1 LF.

(** [len(s)] *)
Definition len (s : string) : Z := Z.of_nat (String.length s).

(** [s[i]] for [0 <= i < len(s)], [None] out of range (where Go panics). *)
Fixpoint byte_at (s : string) (i : nat) : option Z :=
  match s, i with
  | EmptyString, _ => None
  | String c _, O => Some (byte_val c)
  | String _ t, S j => byte_at t j
  end.

(** [s[n:]] for [n <= len(s)]. *)
Fixpoint drop (n : nat) (s : string) : string :=
  match n, s with
  | O, _ => s
  | S k, String _ t => drop k t
  | S _, EmptyString => EmptyString
  end.

(** [s[:n]] for [n <= len(s)]. *)
Fixpoint take (n : nat) (s : string) : string :=
  match n, s with
  | O, _ => EmptyString
  | S k, String c t => String c (take k t)
  | S _, EmptyString => EmptyString
  end.

(** ** unicode/utf8 *)

Module utf8.

Definition RuneError : rune := 65533.      (* U+FFFD *)
Definition RuneSelf : Z := 128.
Definition MaxRune : rune := 1114111.      (* U+10FFFF *)
Definition UTFMax : nat := 4.
Definition surrogateMin : rune := 55296.   (* U+D800 *)
Definition surrogateMax : rune := 57343.   (* U+DFFF *)
Definition rune1Max : Z := 127.
Definition rune2Max : Z := 2047.
Definition rune3Max : Z := 65535.

Definition t2 : Z := 192.                  (* 1100 0000 *)
Definition t3 : Z := 224.                  (* 1110 0000 *)
Definition t4 : Z := 240.                  (* 1111 0000 *)
Definition tx : Z := 128.                  (* 1000 0000 *)
Definition maskx : Z := 63.                (* 0011 1111 *)
Definition mask2 : Z := 31.
Definition mask3 : Z := 15.
Definition mask4 : Z := 7.
Definition locb : Z := 128.
Definition hicb : Z := 191.

(** [uint32(r) > MaxRune] or [r] a surrogate: what [AppendRune] replaces by
    [RuneError].  A negative [r] converts to a large [uint32]. *)
Definition invalid_rune (r : rune) : bool :=
  (r <? 0) || (MaxRune <? r) || ((surrogateMin <=? r) && (r <=? surrogateMax)).

Definition enc3 (r : rune) : string :=
  String (to_byte (Z.lor t3 (Z.shiftr r 12)))
    (String (to_byte (Z.lor tx (Z.land (Z.shiftr r 6) maskx)))
       (String (to_byte (Z.lor tx (Z.land r maskx))) EmptyString)).

(** [utf8.AppendRune(nil, r)]: the bytes that [WriteRune(r)] appends. *)
Definition EncodeRune (r : rune) : string :=
  if (0 <=? r) && (r <=? rune1Max) then str1 (to_byte r)
  else if (0 <=? r) && (r <=? rune2Max) then
    String (to_byte (Z.lor t2 (Z.shiftr r 6)))
      (String (to_byte (Z.lor tx (Z.land r maskx))) EmptyString)
  else if invalid_rune r then enc3 RuneError
  else if r <=? rune3Max then enc3 r
  else
    String (to_byte (Z.lor t4 (Z.shiftr r 18)))
      (String (to_byte (Z.lor tx (Z.land (Z.shiftr r 12) maskx)))
         (String (to_byte (Z.lor tx (Z.land (Z.shiftr r 6) maskx)))
            (String (to_byte (Z.lor tx (Z.land r maskx))) EmptyString))).

(** The table [first] of utf8.go: for a leading byte, the length of the
    sequence it starts and the range accepted for the second byte;
    [None] for a byte that starts no sequence of two or more bytes. *)
Definition lead (b0 : Z) : option (nat * Z * Z) :=
  if b0 <? 194 then None                                   (* 80..C1 *)
  else if b0 <=? 223 then Some (2%nat, locb, hicb)         (* C2..DF *)
  else if b0 =? 224 then Some (3%nat, 160, hicb)           (* E0 *)
  else if b0 <=? 236 then Some (3%nat, locb, hicb)         (* E1..EC *)
  else if b0 =? 237 then Some (3%nat, locb, 159)           (* ED *)
  else if b0 <=? 239 then Some (3%nat, locb, hicb)         (* EE..EF *)
  else if b0 =? 240 then Some (4%nat, 144, hicb)           (* F0 *)
  else if b0 <=? 243 then Some (4%nat, locb, hicb)         (* F1..F3 *)
  else if b0 =? 244 then Some (4%nat, locb, 143)           (* F4 *)
  else None.                                               (* F5..FF *)

Definition cont (b : Z) : bool := (locb <=? b) && (b <=? hicb).

(** The body of [DecodeRuneInString] on the first four bytes of the string,
    [None] standing for a byte past the end. *)
Definition decode4 (o0 o1 o2 o3 : option Z) : rune * nat :=
  match o0 with
  | None => (RuneError, 0%nat)
  | Some b0 =>
    if b0 <? RuneSelf then (b0, 1%nat)
    else
      match lead b0 with
      | None => (RuneError, 1%nat)
      | Some (sz, lo, hi) =>
        match o1 with
        | None => (RuneError, 1%nat)
        | Some b1 =>
          if (b1 <? lo) || (hi <? b1) then (RuneError, 1%nat)
          else if (sz <=? 2)%nat then
            (Z.lor (Z.shiftl (Z.land b0 mask2) 6) (Z.land b1 maskx), 2%nat)
          else
            match o2 with
            | None => (RuneError, 1%nat)
            | Some b2 =>
              if negb (cont b2) then (RuneError, 1%nat)
              else if (sz <=? 3)%nat then
                (Z.lor (Z.lor (Z.shiftl (Z.land b0 mask3) 12)
                                (Z.shiftl (Z.land b1 maskx) 6))
                       (Z.land b2 maskx), 3%nat)
              else
                match o3 with
                | None => (RuneError, 1%nat)
                | Some b3 =>
                  if negb (cont b3) then (RuneError, 1%nat)
                  else
                    (Z.lor (Z.lor (Z.lor (Z.shiftl (Z.land b0 mask4) 18)
                                           (Z.shiftl (Z.land b1 maskx) 12))
                                  (Z.shiftl (Z.land b2 maskx) 6))
                           (Z.land b3 maskx), 4%nat)
                end
            end
        end
      end
  end.

(** [utf8.DecodeRuneInString(s)]: the first rune of [s] and its width in
    bytes; [(RuneError, 1)] on an invalid or short sequence, [(RuneError, 0)]
    on the empty string. *)
Definition DecodeRuneInString (s : string) : rune * nat :=
  decode4 (byte_at s 0) (byte_at s 1) (byte_at s 2) (byte_at s 3).

(** [utf8.RuneStart(b)]: [b] is not a continuation byte. *)
Definition RuneStart (b : Z) : bool := negb (Z.land b 192 =? 128).

End utf8.

(** ** The [range] clause over a string

    [for i, r := range s] decodes one rune at each step, yields its byte
    index and the rune, and advances by the width of the decoded rune (by one
    byte, yielding [RuneError], on an invalid sequence).  [skip] counts the
    bytes of the current rune still to be stepped over. *)
Fixpoint range_from (skip : nat) (i : Z) (s : string) : list (Z * rune) :=
  match s with
  | EmptyString => []
  | String _ t =>
    match skip with
    | S k => range_from k (i + 1) t
    | O =>
      let '(r, w) := utf8.DecodeRuneInString s in
      (i, r) :: range_from (Nat.pred w) (i + 1) t
    end
  end.

Definition range (s : string) : list (Z * rune) := range_from 0 0 s.

(** The runes of [for _, r := range s]. *)
Definition runes (s : string) : list rune := map snd (range s).

(** [string(rs)] for a rune slice: each rune in its UTF-8 encoding. *)
Definition string_of_runes (rs : list rune) : string :=
  fold_right (fun r acc => utf8.EncodeRune r ++ acc)%string EmptyString rs.

(** ** unicode *)

Module unicode.

Definition MaxLatin1 : rune := 255.
Definition ReplacementChar : rune := 65533.

(** [unicode.IsSpace]: the Latin-1 spaces, then the [White_Space] table. *)
Definition IsSpace (r : rune) : bool :=
  if (0 <=? r) && (r <=? MaxLatin1) then
    (r =? 9) || (r =? 10) || (r =? 11) || (r =? 12) || (r =? 13)
    || (r =? 32) || (r =? 133) || (r =? 160)
  else
    (r =? 5760) || ((8192 <=? r) && (r <=? 8202)) || (r =? 8232)
    || (r =? 8233) || (r =? 8239) || (r =? 8287) || (r =? 12288).

End unicode.

(** ** strings *)

Module strings.

(** [strings.HasPrefix(s, prefix)] *)
Definition HasPrefix (s p : string) : bool := String.prefix p s.

(** [strings.HasSuffix(s, suffix)] *)
Definition HasSuffix (s suffix : string) : bool :=
  (String.length suffix <=? String.length s)%nat
  && String.eqb (drop (String.length s - String.length suffix) s) suffix.

(** [strings.TrimSuffix(s, suffix)] *)
Definition TrimSuffix (s suffix : string) : string :=
  if HasSuffix s suffix
  then take (String.length s - String.length suffix) s
  else s.

(** The table [asciiSpace]. *)
Definition asciiSpace (c : Z) : bool :=
  (c =? 9) || (c =? 10) || (c =? 11) || (c =? 12) || (c =? 13) || (c =? 32).

(** The loop of [utf8.DecodeLastRuneInString] that walks back from [start]
    to the start of the last rune, no further than [lim]. *)
Fixpoint back_to_start (fuel : nat) (s : string) (start lim : Z) : Z :=
  match fuel with
  | O => start
  | S f =>
    if start <? lim then start
    else
      match byte_at s (Z.to_nat start) with
      | None => start
      | Some b =>
        if utf8.RuneStart b then start
        else back_to_start f s (start - 1) lim
      end
  end.

(** [utf8.DecodeLastRuneInString(s)] *)
Definition DecodeLastRuneInString (s : string) : rune * nat :=
  let e := len s in
  if e =? 0 then (utf8.RuneError, 0%nat)
  else
    match byte_at s (Z.to_nat (e - 1)) with
    | None => (utf8.RuneError, 0%nat)
    | Some r =>
      if r <? utf8.RuneSelf then (r, 1%nat)
      else
        let lim := Z.max (e - Z.of_nat utf8.UTFMax) 0 in
        let start := back_to_start utf8.UTFMax s (e - 2) lim in
        let start := Z.max start 0 in
        let '(r, size) := utf8.DecodeRuneInString (drop (Z.to_nat start) s) in
        if start + Z.of_nat size =? e then (r, size)
        else (utf8.RuneError, 1%nat)
    end.

(** [indexFunc(s, f, false)]: the index of the first rune that does not
    satisfy [f], [-1] if there is none. *)
Definition indexFunc_false (s : string) (f : rune -> bool) : Z :=
  match find (fun ir => negb (f (snd ir))) (range s) with
  | Some (i, _) => i
  | None => -1
  end.

(** [lastIndexFunc(s, f, false)]: the loop from the end of [s]. *)
Fixpoint lastIndexFunc_false (fuel : nat) (s : string) (f : rune -> bool)
    (i : Z) : Z :=
  match fuel with
  | O => -1
  | S fuel' =>
    if 0 <? i then
      let '(r, size) := DecodeLastRuneInString (take (Z.to_nat i) s) in
      let i := i - Z.of_nat size in
      if negb (f r) then i else lastIndexFunc_false fuel' s f i
    else -1
  end.

(** [strings.TrimLeftFunc(s, f)] *)
Definition TrimLeftFunc (s : string) (f : rune -> bool) : string :=
  let i := indexFunc_false s f in
  if i =? -1 then "" else drop (Z.to_nat i) s.

(** [strings.TrimRightFunc(s, f)] *)
Definition TrimRightFunc (s : string) (f : rune -> bool) : string :=
  let i := lastIndexFunc_false (S (String.length s)) s f (len s) in
  let i :=
    match (if 0 <=? i then byte_at s (Z.to_nat i) else None) with
    | Some b =>
      if utf8.RuneSelf <=? b
      then i + Z.of_nat (snd (utf8.DecodeRuneInString (drop (Z.to_nat i) s)))
      else i + 1
    | None => i + 1
    end in
  take (Z.to_nat i) s.

(** [strings.TrimFunc(s, f)] *)
Definition TrimFunc (s : string) (f : rune -> bool) : string :=
  TrimRightFunc (TrimLeftFunc s f) f.

(** The second loop of [TrimSpace]: from the end, over ASCII spaces. *)
Fixpoint trim_right_ascii (fuel : nat) (s : string) : string :=
  match fuel with
  | O => s
  | S f =>
    match byte_at s (String.length s - 1) with
    | None => s
    | Some c =>
      if utf8.RuneSelf <=? c then TrimRightFunc s unicode.IsSpace
      else if asciiSpace c then trim_right_ascii f (take (String.length s - 1) s)
      else s
    end
  end.

(** The first loop of [TrimSpace]: from the start, over ASCII spaces; a byte
    outside ASCII hands the rest of the string over to [TrimFunc]. *)
Fixpoint TrimSpace (s : string) : string :=
  match s with
  | EmptyString => EmptyString
  | String c t =>
    if utf8.RuneSelf <=? byte_val c then TrimFunc s unicode.IsSpace
    else if asciiSpace (byte_val c) then TrimSpace t
    else trim_right_ascii (String.length s) s
  end.

End strings.

(** ** encoding/json: the decoder

    [json.Unmarshal] first checks that the whole input is one well-formed
    JSON text and then stores it into the destination; both passes are
    embedded as a parser to a syntax tree ([Unmarshal_value]) followed by the
    store into a [StreamResponseChunk] (below).  String literals are kept as
    the rune sequence that [unquote] produces. *)

Module json.

Unset Elimination Schemes.
Inductive value : Type :=
| Null
| Bool (b : bool)
| Number
| Str (rs : list rune)
| Array (elems : list value)
| Object (members : list (list rune * value)).
Set Elimination Schemes.

Definition maxNestingDepth : Z := 10000.

(** [isSpace] of scanner.go. *)
Definition isSpace (b : Z) : bool :=
  (b =? 32) || (b =? 9) || (b =? 13) || (b =? 10).

Fixpoint skip_ws (s : string) : string :=
  match s with
  | String c t => if isSpace (byte_val c) then skip_ws t else s
  | EmptyString => s
  end.

Definition is_digit (b : Z) : bool := (48 <=? b) && (b <=? 57).

Definition hex_val (b : Z) : option Z :=
  if is_digit b then Some (b - 48)
  else if (97 <=? b) && (b <=? 102) then Some (b - 97 + 10)
  else if (65 <=? b) && (b <=? 70) then Some (b - 65 + 10)
  else None.

(** Four hexadecimal digits at the start of [s]. *)
Definition hex4 (s : string) : option (rune * string) :=
  match s with
  | String c0 (String c1 (String c2 (String c3 t))) =>
    match hex_val (byte_val c0), hex_val (byte_val c1),
          hex_val (byte_val c2), hex_val (byte_val c3) with
    | Some h0, Some h1, Some h2, Some h3 =>
      Some (h0 * 4096 + h1 * 256 + h2 * 16 + h3, t)
    | _, _, _, _ => None
    end
  | _ => None
  end.

(** [getu4]: the rune of a [\uXXXX] escape at the start of [s], [-1] if
    there is none. *)
Definition getu4 (s : string) : rune * string :=
  match s with
  | String c0 (String c1 t) =>
    if (byte_val c0 =? 92) && (byte_val c1 =? 117) then
      match hex4 t with
      | Some (r, t') => (r, t')
      | None => (-1, s)
      end
    else (-1, s)
  | _ => (-1, s)
  end.

(** [utf16.IsSurrogate] and [utf16.DecodeRune]. *)
Definition IsSurrogate (r : rune) : bool := (55296 <=? r) && (r <? 57344).

Definition utf16_DecodeRune (r1 r2 : rune) : rune :=
  if (55296 <=? r1) && (r1 <? 56320) && (56320 <=? r2) && (r2 <? 57344)
  then Z.lor (Z.shiftl (r1 - 55296) 10) (r2 - 56320) + 65536
  else unicode.ReplacementChar.

(** The loop of [unquote] (and the scanner's check of the literal) from the
    byte after the opening quote: the runes of the literal and the input
    after its closing quote. *)
Fixpoint unquote_loop (fuel : nat) (s : string) (acc : list rune)
    : option (list rune * string) :=
  match fuel with
  | O => None
  | S f =>
    match s with
    | EmptyString => None
    | String c t =>
      let b := byte_val c in
      if b =? 34 then Some (rev acc, t)
      else if b =? 92 then
        match t with
        | EmptyString => None
        | String e t2 =>
          let x := byte_val e in
          if (x =? 34) || (x =? 92) || (x =? 47) then unquote_loop f t2 (x :: acc)
          else if x =? 98 then unquote_loop f t2 (8 :: acc)
          else if x =? 102 then unquote_loop f t2 (12 :: acc)
          else if x =? 110 then unquote_loop f t2 (10 :: acc)
          else if x =? 114 then unquote_loop f t2 (13 :: acc)
          else if x =? 116 then unquote_loop f t2 (9 :: acc)
          else if x =? 117 then
            match hex4 t2 with
            | None => None
            | Some (rr, t3) =>
              if IsSurrogate rr then
                let '(rr1, t4) := getu4 t3 in
                let dec := utf16_DecodeRune rr rr1 in
                if negb (dec =? unicode.ReplacementChar)
                then unquote_loop f t4 (dec :: acc)
                else unquote_loop f t3 (unicode.ReplacementChar :: acc)
              else unquote_loop f t3 (rr :: acc)
            end
          else None
        end
      else if b <? 32 then None
      else if b <? utf8.RuneSelf then unquote_loop f t (b :: acc)
      else
        let '(rr, size) := utf8.DecodeRuneInString s in
        unquote_loop f (drop size s) (rr :: acc)
    end
  end.

Definition parse_string (s : string) : option (list rune * string) :=
  unquote_loop (S (String.length s)) s [].

Fixpoint skip_digits (s : string) : string :=
  match s with
  | String c t => if is_digit (byte_val c) then skip_digits t else s
  | EmptyString => s
  end.

(** At least one digit, then as many as follow. *)
Definition digits1 (s : string) : option string :=
  match s with
  | String c t => if is_digit (byte_val c) then Some (skip_digits t) else None
  | EmptyString => None
  end.

(** A number literal: the input after it. *)
Definition parse_number (s : string) : option string :=
  let s1 := match s with
            | String c t => if byte_val c =? 45 then t else s
            | EmptyString => s
            end in
  let after_int :=
    match s1 with
    | String c t =>
      if byte_val c =? 48 then Some t
      else if is_digit (byte_val c) then Some (skip_digits t)
      else None
    | EmptyString => None
    end in
  match after_int with
  | None => None
  | Some s2 =>
    let after_frac :=
      match s2 with
      | String c t => if byte_val c =? 46 then digits1 t else Some s2
      | EmptyString => Some s2
      end in
    match after_frac with
    | None => None
    | Some s3 =>
      match s3 with
      | String c t =>
        if (byte_val c =? 101) || (byte_val c =? 69) then
          match t with
          | String c' t' =>
            if (byte_val c' =? 43) || (byte_val c' =? 45) then digits1 t'
            else digits1 t
          | EmptyString => None
          end
        else Some s3
      | EmptyString => Some s3
      end
    end
  end.

(** A literal name ([true], [false], [null]) at the start of [s]. *)
Definition literal (name s : string) : option string :=
  if String.prefix name s then Some (drop (String.length name) s) else None.

Fixpoint parse_value (fuel : nat) (depth : Z) (s : string)
    : option (value * string) :=
  match fuel with
  | O => None
  | S f =>
    match skip_ws s with
    | EmptyString => None
    | String c t as s' =>
      let b := byte_val c in
      if b =? 123 then                                        (* { *)
        if maxNestingDepth <? depth + 1 then None
        else
          match skip_ws t with
          | EmptyString => None
          | String c' t' =>
            if byte_val c' =? 125 then Some (Object [], t')
            else
              match parse_members f (depth + 1) t with
              | Some (ms, rest) => Some (Object ms, rest)
              | None => None
              end
          end
      else if b =? 91 then                                    (* [ *)
        if maxNestingDepth <? depth + 1 then None
        else
          match skip_ws t with
          | EmptyString => None
          | String c' t' =>
            if byte_val c' =? 93 then Some (Array [], t')
            else
              match parse_elems f (depth + 1) t with
              | Some (vs, rest) => Some (Array vs, rest)
              | None => None
              end
          end
      else if b =? 34 then
        match parse_string t with
        | Some (rs, rest) => Some (Str rs, rest)
        | None => None
        end
      else if (b =? 45) || is_digit b then
        match parse_number s' with
        | Some rest => Some (Number, rest)
        | None => None
        end
      else if b =? 116 then
        match literal "true" s' with
        | Some rest => Some (Bool true, rest)
        | None => None
        end
      else if b =? 102 then
        match literal "false" s' with
        | Some rest => Some (Bool false, rest)
        | None => None
        end
      else if b =? 110 then
        match literal "null" s' with
        | Some rest => Some (Null, rest)
        | None => None
        end
      else None
    end
  end

with parse_elems (fuel : nat) (depth : Z) (s : string)
    : option (list value * string) :=
  match fuel with
  | O => None
  | S f =>
    match parse_value f depth s with
    | None => None
    | Some (v, rest) =>
      match skip_ws rest with
      | EmptyString => None
      | String c t =>
        if byte_val c =? 44 then
          match parse_elems f depth t with
          | Some (vs, rest') => Some (v :: vs, rest')
          | None => None
          end
        else if byte_val c =? 93 then Some ([v], t)
        else None
      end
    end
  end

with parse_members (fuel : nat) (depth : Z) (s : string)
    : option (list (list rune * value) * string) :=
  match fuel with
  | O => None
  | S f =>
    match skip_ws s with
    | EmptyString => None
    | String c t =>
      if byte_val c =? 34 then
        match parse_string t with
        | None => None
        | Some (k, rest) =>
          match skip_ws rest with
          | EmptyString => None
          | String c2 t2 =>
            if byte_val c2 =? 58 then
              match parse_value f depth t2 with
              | None => None
              | Some (v, rest2) =>
                match skip_ws rest2 with
                | EmptyString => None
                | String c3 t3 =>
                  if byte_val c3 =? 44 then
                    match parse_members f depth t3 with
                    | Some (ms, rest3) => Some ((k, v) :: ms, rest3)
                    | None => None
                    end
                  else if byte_val c3 =? 125 then Some ([(k, v)], t3)
                  else None
                end
              end
            else None
          end
        end
      else None
    end
  end.

(** The whole input as one JSON text, [None] on a syntax error. *)
Definition Unmarshal_value (data : string) : option value :=
  match parse_value (2 * String.length data + 2) 0 data with
  | Some (v, rest) =>
    match skip_ws rest with
    | EmptyString => Some v
    | String _ _ => None
    end
  | None => None
  end.

(** [foldName] on a rune: upper-case ASCII; the two runes outside ASCII
    whose simple fold is an ASCII letter (U+017F and U+212A) folded to it. *)
Definition foldRune (r : rune) : rune :=
  if (97 <=? r) && (r <=? 122) then r - 32
  else if r =? 383 then 83
  else if r =? 8490 then 75
  else r.

Fixpoint runes_eqb (a b : list rune) : bool :=
  match a, b with
  | [], [] => true
  | x :: a', y :: b' => (x =? y) && runes_eqb a' b'
  | _, _ => false
  end.

(** A member key selects the struct field tagged [name] when it equals the
    name, or equals it under case folding ([name] is made of ASCII
    letters). *)
Definition key_matches (key : list rune) (name : string) : bool :=
  runes_eqb (map foldRune key) (map foldRune (runes name)).

End json.

(** ** The data model of main.go *)

(** Go's [error] values: an error with a text ([errors.New], an error of a
    library) or an error that wraps another one under a text ([%w]). *)
Inductive error : Type :=
| errorString (text : string)
| wrapError (text : string) (err : error).

(** [err.Error()] *)
Definition Error (e : error) : string :=
  match e with
  | errorString text => text
  | wrapError text _ => text
  end.

(** [fmt.Errorf(format, a)] with one [%s] verb at the end of the format. *)
Definition Errorf_s (prefix a : string) : error := errorString (prefix ++ a).

(** [fmt.Errorf(format, err)] with one [%w] verb at the end of the format. *)
Definition Errorf_w (prefix : string) (err : error) : error :=
  wrapError (prefix ++ Error err) err.

(** [float32]: the values of the IEEE 754 binary32 format. *)
Definition float32 := spec_float.

Record DeepSeekConfig := {
  APIKey : string;
  Temperature : option float32;
  Prompt : option string
}.

Record Config := { DeepSeek : DeepSeekConfig }.

Record ChatMessage := { Role : string; MessageContent : string }.

Record ChatRequest := {
  Model : string;
  Messages : list ChatMessage;
  Stream : bool;
  RequestTemperature : option float32     (* `json:"temperature,omitempty"` *)
}.

Record DeltaMessage := {
  Content : option string                 (* `json:"content,omitempty"` *)
}.

Record StreamChoice := { Delta : DeltaMessage }.

Record StreamResponseChunk := { Choices : list StreamChoice }.

(** ** encoding/json on the types of main.go *)

(** The JSON text that [json.Marshal] writes, as its syntax tree.  A string
    is kept as the Go string it encodes and a number as the [float32] whose
    shortest decimal form is written. *)
Unset Elimination Schemes.
Inductive jtext : Type :=
| JNull
| JBool (b : bool)
| JString (s : string)
| JFloat32 (f : float32)
| JArray (elems : list jtext)
| JObject (fields : list (string * jtext)).
Set Elimination Schemes.

(** The value of the member [name] of an object. *)
Fixpoint jfield (name : string) (fields : list (string * jtext)) : option jtext :=
  match fields with
  | [] => None
  | (k, v) :: rest => if String.eqb k name then Some v else jfield name rest
  end.

Definition Marshal_ChatMessage (m : ChatMessage) : jtext :=
  JObject [("role", JString (Role m)); ("content", JString (MessageContent m))].

(** The float encoder: NaN and the infinities are an [UnsupportedValueError]. *)
Definition Marshal_float32 (f : float32) : jtext + error :=
  match f with
  | S754_nan => inr (errorString "json: unsupported value: NaN")
  | S754_infinity false => inr (errorString "json: unsupported value: +Inf")
  | S754_infinity true => inr (errorString "json: unsupported value: -Inf")
  | _ => inl (JFloat32 f)
  end.

(** [json.Marshal(requestBody)] for a [ChatRequest]: the fields in the order
    of the struct; [temperature] is left out when the pointer is nil
    ([omitempty]).  A slice of length zero stands for the nil slice. *)
Definition Marshal_ChatRequest (r : ChatRequest) : jtext + error :=
  let fixed :=
    [("model", JString (Model r));
     ("messages", match Messages r with
                  | [] => JNull
                  | ms => JArray (map Marshal_ChatMessage ms)
                  end);
     ("stream", JBool (Stream r))] in
  match RequestTemperature r with
  | None => inl (JObject fixed)
  | Some t =>
    match Marshal_float32 t with
    | inl n => inl (JObject (fixed ++ [("temperature", n)]))
    | inr e => inr e
    end
  end.

(** The members of an object stored one after the other into a struct. *)
Fixpoint store_object {A : Type}
    (field : A -> list rune -> json.value -> option A)
    (ms : list (list rune * json.value)) (a : A) : option A :=
  match ms with
  | [] => Some a
  | (k, v) :: rest =>
    match field a k v with
    | Some a' => store_object field rest a'
    | None => None
    end
  end.

(** A JSON value stored into a [*string]: [null] sets the pointer to nil, a
    string literal sets the string; anything else is an
    [UnmarshalTypeError]. *)
Definition store_string_ptr (v : json.value) : option (option string) :=
  match v with
  | json.Null => Some None
  | json.Str rs => Some (Some (string_of_runes rs))
  | _ => None
  end.

(** A JSON value stored into a struct: [null] leaves it as it is, an object
    sets the fields its keys select and skips the other members. *)
Definition store_DeltaMessage (old : DeltaMessage) (v : json.value)
    : option DeltaMessage :=
  match v with
  | json.Null => Some old
  | json.Object ms =>
    store_object
      (fun d k x =>
         if json.key_matches k "content" then
           match store_string_ptr x with
           | Some c => Some {| Content := c |}
           | None => None
           end
         else Some d)
      ms old
  | _ => None
  end.

Definition store_StreamChoice (old : StreamChoice) (v : json.value)
    : option StreamChoice :=
  match v with
  | json.Null => Some old
  | json.Object ms =>
    store_object
      (fun c k x =>
         if json.key_matches k "delta" then
           match store_DeltaMessage (Delta c) x with
           | Some d => Some {| Delta := d |}
           | None => None
           end
         else Some c)
      ms old
  | _ => None
  end.

(** The elements of an array stored into a slice: element [i] is stored
    into the slice's element [i] when it has one, into a zero value
    otherwise. *)
Fixpoint store_elems (elems : list json.value) (old : list StreamChoice)
    : option (list StreamChoice) :=
  match elems with
  | [] => Some []
  | e :: es =>
    let '(o, os) := match old with
                    | [] => ({| Delta := {| Content := None |} |}, [])
                    | o :: os => (o, os)
                    end in
    match store_StreamChoice o e with
    | None => None
    | Some c =>
      match store_elems es os with
      | Some cs => Some (c :: cs)
      | None => None
      end
    end
  end.

Definition store_Choices (old : list StreamChoice) (v : json.value)
    : option (list StreamChoice) :=
  match v with
  | json.Null => Some []
  | json.Array elems => store_elems elems old
  | _ => None
  end.

Definition store_StreamResponseChunk (old : StreamResponseChunk)
    (v : json.value) : option StreamResponseChunk :=
  match v with
  | json.Null => Some old
  | json.Object ms =>
    store_object
      (fun c k x =>
         if json.key_matches k "choices" then
           match store_Choices (Choices c) x with
           | Some cs => Some {| Choices := cs |}
           | None => None
           end
         else Some c)
      ms old
  | _ => None
  end.

(** [json.Unmarshal([]byte(jsonStr), &chunk)] on a zero [chunk]: the chunk
    decoded, [None] when Unmarshal returns an error (a syntax error or a
    value of the wrong JSON type for its field). *)
Definition Unmarshal_chunk (jsonStr : string) : option StreamResponseChunk :=
  match json.Unmarshal_value jsonStr with
  | Some v => store_StreamResponseChunk {| Choices := [] |} v
  | None => None
  end.

(** ** The outside world

    What the libraries and the operating system answer, as data. *)

(** [resp.Body]: what [io.ReadAll] returns for it, and what a
    [bufio.Scanner] over it yields: the successive values of
    [scanner.Text()] and, once [Scan] has returned [false], the value of
    [scanner.Err()]. *)
Record ResponseBody := {
  ReadAll : string;
  ScanText : list string;
  ScanErr : option error
}.

Record Response := { StatusCode : Z; Body : ResponseBody }.

Record Request := {
  Method : string;
  URL : string;
  Header : list (string * string);
  RequestBody : jtext
}.

Definition StatusOK : Z := 200.

Record Signature := { Name : string; Email : string; When : Z }.

Record Env := {
  (* loadConfig() *)
  env_loadConfig : Config + error;
  (* exec.Command("git", "diff", "--cached").Output() *)
  env_git_diff_cached : string + error;
  (* client.Do(req) *)
  env_Do : Request -> Response + error;
  (* os.Getwd() *)
  env_Getwd : string + error;
  (* git.PlainOpenWithOptions(wd, ...) *)
  env_PlainOpen : string -> option error;
  (* repo.Worktree() *)
  env_Worktree : option error;
  (* worktree.Commit(message, options): the commit hash *)
  env_Commit : string -> Signature -> string + error;
  (* exec.Command("git", "config", key).Output() *)
  env_git_config : string -> string + error;
  (* time.Now() *)
  env_Now : Z
}.

(** What the program has done to the world: the bytes written to standard
    output, and the calls of [worktree.Commit], the only operation of the
    program that writes to the repository. *)
Record World := {
  stdout : string;
  commits : list (string * Signature)
}.

Definition print (w : World) (s : string) : World :=
  {| stdout := stdout w ++ s; commits := commits w |}.

(** ** main.go *)

Definition default_prompt : string :=
  NL ++ "You are an AI commit message assistant." ++ NL
  ++ NL
  ++ "Please generate a commit message with the following format:" ++ NL
  ++ "1. Title (one short sentence, 50-72 characters max)." ++ NL
  ++ "2. A clear bullet-point list of changes (start each line with "
  ++ DQ ++ "- " ++ DQ ++ ")." ++ NL
  ++ "3. Each line, including bullets, should be under 100 characters." ++ NL
  ++ "4. Keep it concise, consistent, and professional." ++ NL
  ++ NL
  ++ "Example:" ++ NL
  ++ NL
  ++ "Improve error handling in user authentication" ++ NL
  ++ NL
  ++ "- Add detailed error messages for login failures" ++ NL
  ++ "- Handle timeout errors gracefully" ++ NL
  ++ "- Refactor error propagation logic for clarity" ++ NL.

Definition buildPromptMessages (changes : string) (promptOpt : option string)
    : list ChatMessage :=
  let prompt :=
    match promptOpt with
    | Some p => if negb (String.eqb p "") then p else default_prompt
    | None => default_prompt
    end in
  [ {| Role := "system"; MessageContent := prompt |};
    {| Role := "user";
       MessageContent := "Here are my current Git changes:" ++ NL ++ changes |} ].

(** [strings.Repeat(s, count)] for [count >= 0]. *)
Fixpoint Repeat (s : string) (count : nat) : string :=
  match count with
  | O => ""
  | S k => s ++ Repeat s k
  end.

Definition printBanner (w : World) (title : string) : World :=
  let maxWidth := 100 in
  let minWidth := 60 in
  let padding := 4 in
  let rawWidth := len title + padding * 2 in
  let totalWidth :=
    if (minWidth <? rawWidth) && (rawWidth <? maxWidth) then rawWidth
    else if rawWidth <=? minWidth then minWidth
    else maxWidth in
  let bannerLine := Repeat "=" (Z.to_nat totalWidth) in
  let titlePadding := Z.quot (totalWidth - len title) 2 in
  let w := print w (bannerLine ++ NL) in
  let w := print w (Repeat " " (Z.to_nat titlePadding) ++ title
                    ++ Repeat " " (Z.to_nat (totalWidth - titlePadding - len title))
                    ++ NL) in
  print w (bannerLine ++ NL).

(** The accumulator of [streamCommitMessage]: the two [strings.Builder]s,
    and the standard output next to them. *)
Record Accumulator := {
  fullMessage : string;
  currentLine : string;
  console : string
}.

(** The body of [for _, ch := range content]. *)
Definition write_rune (a : Accumulator) (ch : rune) : Accumulator :=
  let currentLine' := currentLine a ++ utf8.EncodeRune ch in   (* WriteRune *)
  if ch =? 10 then
    let line := currentLine' in
    {| fullMessage := fullMessage a ++ line;
       currentLine := "";                                       (* Reset *)
       console := console a ++ ("| " ++ strings.TrimSuffix line NL) ++ NL |}
  else
    {| fullMessage := fullMessage a;
       currentLine := currentLine';
       console := console a |}.

(** The body of [for _, choice := range chunk.Choices]. *)
Definition process_choice (a : Accumulator) (choice : StreamChoice)
    : Accumulator :=
  match Content (Delta choice) with
  | Some content => fold_left write_rune (runes content) a
  | None => a
  end.

Definition process_chunk (a : Accumulator) (chunk : StreamResponseChunk)
    : Accumulator :=
  fold_left process_choice (Choices chunk) a.

(** The body of [for scanner.Scan()], on [line := scanner.Text()]. *)
Definition process_line (a : Accumulator) (line : string) : Accumulator :=
  if strings.HasPrefix line "data:" && negb (String.eqb line "data: [DONE]")
  then
    let jsonStr := strings.TrimSpace (drop 5 line) in
    if String.eqb jsonStr "" then a                              (* continue *)
    else
      match Unmarshal_chunk jsonStr with
      | None => a                                                (* continue *)
      | Some chunk => process_chunk a chunk
      end
  else a.

(** "Print any remaining content". *)
Definition flush_remaining (a : Accumulator) : Accumulator :=
  if 0 <? len (currentLine a) then
    let line := currentLine a in
    {| fullMessage := fullMessage a ++ line;
       currentLine := currentLine a;
       console := console a ++ ("| " ++ strings.TrimSpace line ++ NL) |}
  else a.

(** [var fullMessage strings.Builder; var currentLine strings.Builder]:
    two empty builders, [out] being the standard output so far. *)
Definition new_accumulator (out : string) : Accumulator :=
  {| fullMessage := ""; currentLine := ""; console := out |}.

(** The part of [streamCommitMessage] after the status check: the scanner
    loop, the flush of the remaining content and the scanner's error. *)
Definition assemble (body : ResponseBody) (out : string)
    : (string * option error) * string :=
  let a := fold_left process_line (ScanText body) (new_accumulator out) in
  let a := flush_remaining a in
  match ScanErr body with
  | Some err => (("", Some err), console a)
  | None => ((fullMessage a, None), console a)
  end.

Definition chat_request (messages : list ChatMessage)
    (temperature : option float32) : ChatRequest :=
  {| Model := "deepseek-chat";
     Messages := messages;
     Stream := true;
     RequestTemperature := temperature |}.

(** The request that [http.NewRequest] and the two [Header.Set] build. *)
Definition new_request (apiKey : string) (jsonData : jtext) : Request :=
  {| Method := "POST";
     URL := "https://api.deepseek.com/chat/completions";
     Header := [("Content-Type", "application/json");
                ("Authorization", "Bearer " ++ apiKey)];
     RequestBody := jsonData |}.

(** [streamCommitMessage]: the returned pair and the standard output after
    the call, [out] being the standard output before it. *)
Definition streamCommitMessage (env : Env) (out : string) (apiKey : string)
    (messages : list ChatMessage) (temperature : option float32)
    : (string * option error) * string :=
  let requestBody := chat_request messages temperature in
  match Marshal_ChatRequest requestBody with
  | inr err => (("", Some err), out)
  | inl jsonData =>
    let req := new_request apiKey jsonData in
    match env_Do env req with
    | inr err => (("", Some err), out)
    | inl resp =>
      if negb (StatusCode resp =? StatusOK) then
        let body := ReadAll (Body resp) in
        (("", Some (Errorf_s "API failed: " body)), out)
      else assemble (Body resp) out
    end
  end.

Definition getGitConfig (env : Env) (key : string) : string :=
  match env_git_config env key with
  | inr _ => ""
  | inl output => strings.TrimSpace output
  end.

Definition createCommit (env : Env) (w : World) (message : string)
    : (string * option error) * World :=
  match env_Getwd env with
  | inr err => (("", Some err), w)
  | inl wd =>
    match env_PlainOpen env wd with
    | Some err => (("", Some err), w)
    | None =>
      match env_Worktree env with
      | Some err => (("", Some err), w)
      | None =>
        let author := {| Name := getGitConfig env "user.name";
                         Email := getGitConfig env "user.email";
                         When := env_Now env |} in
        let w' := {| stdout := stdout w;
                     commits := commits w ++ [(message, author)] |} in
        match env_Commit env message author with
        | inr err => (("", Some err), w')
        | inl commit => ((commit, None), w')
        end
      end
    end
  end.

Definition getStagedChanges (env : Env) : string * option error :=
  match env_git_diff_cached env with
  | inr err => ("", Some err)
  | inl output =>
    if len output =? 0
    then ("", Some (errorString "no staged changes found"))
    else (output, None)
  end.

(** The check mark U+2705 of the second banner, in UTF-8. *)
Definition check_mark : string :=
  String "226"%char (String "156"%char (String "133"%char "")).

(** [runCommit]: the returned error and the world after the run;
    [applyFlag] is the global that the [--apply] flag sets. *)
Definition runCommit (env : Env) (applyFlag : bool) (w : World)
    : option error * World :=
  match env_loadConfig env with
  | inr err => (Some (Errorf_w "failed to load config: " err), w)
  | inl config =>
    if String.eqb (APIKey (DeepSeek config)) "" then
      (Some (errorString
         "error: No DeepSeek API key found. Please set your API key in the config file"),
       w)
    else
      match getStagedChanges env with
      | (_, Some err) => (Some (Errorf_w "failed to get staged changes: " err), w)
      | (changes, None) =>
        let messages := buildPromptMessages changes (Prompt (DeepSeek config)) in
        let w := printBanner w "AI Suggested Commit Message" in
        let '((fullMessage, err), out) :=
          streamCommitMessage env (stdout w) (APIKey (DeepSeek config)) messages
                              (Temperature (DeepSeek config)) in
        let w := {| stdout := out; commits := commits w |} in
        match err with
        | Some err => (Some (Errorf_w "failed to generate commit message: " err), w)
        | None =>
          if applyFlag then
            let '((commitID, err), w) :=
              createCommit env w (strings.TrimSpace fullMessage) in
            match err with
            | Some err => (Some (Errorf_w "failed to create commit: " err), w)
            | None =>
              let w := printBanner w (check_mark ++ " Commit Successful") in
              let w := print w ("Commit ID: " ++ commitID ++ NL ++ NL) in
              (None, w)
            end
          else (None, w)
        end
      end
  end.

(** * The vocabulary of the properties *)

(** What [AppendRune] encodes for [r]: [r] itself, [RuneError] for a rune
    that is out of range or a surrogate. *)
Definition sanitize (r : rune) : rune :=
  if utf8.invalid_rune r then utf8.RuneError else r.

(** [s] is well-formed UTF-8: the encoding of a sequence of runes. *)
Definition well_formed (s : string) : Prop :=
  exists rs : list rune, s = string_of_runes rs.

Definition rune_width_eqb (x y : rune * nat) : bool :=
  (fst x =? fst y) && Nat.eqb (snd x) (snd y).

(** No byte of [s] is a line feed. *)
Fixpoint no_LF (s : string) : bool :=
  match s with
  | EmptyString => true
  | String c t => negb (byte_val c =? 10) && no_LF t
  end.

(** The check of one rune: its encoding decodes to the rune (sanitized) and
    to its own length, and holds a line feed only if the rune is one. *)
Definition roundtrip_ok (r : rune) : bool :=
  rune_width_eqb (utf8.DecodeRuneInString (utf8.EncodeRune r))
                 (sanitize r, String.length (utf8.EncodeRune r))
  && negb (rune_width_eqb (sanitize r, String.length (utf8.EncodeRune r))
                          (utf8.RuneError, 1%nat))
  && ((r =? 10) || no_LF (utf8.EncodeRune r)).

(** [P] on the [n] integers from [z] on. *)
Fixpoint all_from (n : nat) (z : Z) (P : Z -> bool) : bool :=
  match n with
  | O => true
  | S k => if P z then all_from k (z + 1) P else false
  end.

Ltac break_decode4 :=
  repeat match goal with
         | |- context [match ?x with _ => _ end] => destruct x
         end.

(** The concatenation of a list of strings, in order. *)
Definition join (ls : list string) : string :=
  fold_right append EmptyString ls.

(** All the text that the accumulator holds. *)
Definition text (a : Accumulator) : string :=
  (fullMessage a ++ currentLine a)%string.

(** The loop over the runes of one content string. *)
Definition feed (a : Accumulator) (content : string) : Accumulator :=
  fold_left write_rune (runes content) a.

(** The content strings of a chunk, in the order of its choices. *)
Definition chunk_fragments (chunk : StreamResponseChunk) : list string :=
  flat_map (fun choice => match Content (Delta choice) with
                          | Some content => [content]
                          | None => []
                          end) (Choices chunk).

(** The chunk that a line of the response delivers, if it delivers one:
    the line is a data line, is not the [DONE] line, has a payload, and
    the payload decodes. *)
Definition line_chunk (line : string) : option StreamResponseChunk :=
  if strings.HasPrefix line "data:" && negb (String.eqb line "data: [DONE]")
  then
    let jsonStr := strings.TrimSpace (drop 5 line) in
    if String.eqb jsonStr "" then None else Unmarshal_chunk jsonStr
  else None.

(** The content strings that the lines of a response deliver, in order. *)
Definition fragments (lines : list string) : list string :=
  flat_map (fun line => match line_chunk line with
                        | Some chunk => chunk_fragments chunk
                        | None => []
                        end) lines.

Definition well_formed_delta (d : DeltaMessage) : Prop :=
  match Content d with
  | Some content => well_formed content
  | None => True
  end.

Definition well_formed_choice (c : StreamChoice) : Prop :=
  well_formed_delta (Delta c).

(** The server answers the request of [streamCommitMessage] with [resp]:
    the request body serializes and [client.Do] returns [resp]. *)
Definition answers (env : Env) (apiKey : string) (messages : list ChatMessage)
    (temperature : option float32) (resp : Response) : Prop :=
  exists jsonData,
    Marshal_ChatRequest (chat_request messages temperature) = inl jsonData
    /\ env_Do env (new_request apiKey jsonData) = inl resp.

(** The server answers with status 200 and a body that the scanner reads as
    the lines [lines], ending with the error [err] if there is one. *)
Definition delivers (env : Env) (apiKey : string) (messages : list ChatMessage)
    (temperature : option float32) (lines : list string) (err : option error)
    : Prop :=
  exists resp,
    answers env apiKey messages temperature resp
    /\ StatusCode resp = StatusOK
    /\ ScanText (Body resp) = lines
    /\ ScanErr (Body resp) = err.

(** A world in which the server answers every request with [resp] and
    nothing else works. *)
Definition env_serving (resp : Response) : Env :=
  {| env_loadConfig := inr (errorString "no config");
     env_git_diff_cached := inr (errorString "no git");
     env_Do := fun _ => inl resp;
     env_Getwd := inr (errorString "no working directory");
     env_PlainOpen := fun _ => Some (errorString "no repository");
     env_Worktree := Some (errorString "no worktree");
     env_Commit := fun _ _ => inr (errorString "no commit");
     env_git_config := fun _ => inr (errorString "no git");
     env_Now := 0 |}.

(** A response with status 200 whose body reads as [lines]. *)
Definition ok_response (lines : list string) (err : option error) : Response :=
  {| StatusCode := StatusOK;
     Body := {| ReadAll := ""; ScanText := lines; ScanErr := err |} |}.

(** The data line of an event with one choice whose delta has the JSON
    string literal [literal] (escapes included, quotes excluded) as its
    content. *)
Definition data_event (literal : string) : string :=
  "data: {" ++ DQ ++ "choices" ++ DQ ++ ":[{" ++ DQ ++ "delta" ++ DQ ++ ":{"
  ++ DQ ++ "content" ++ DQ ++ ":" ++ DQ ++ literal ++ DQ ++ "}}]}".

(** A response with a status other than 200, and the world that serves it. *)
Definition error_response (status : Z) (body : string) : Response :=
  {| StatusCode := status;
     Body := {| ReadAll := body; ScanText := []; ScanErr := None |} |}.

(** The choice with the content [c]. *)
Definition choice_of (c : option string) : StreamChoice :=
  {| Delta := {| Content := c |} |}.

(** The data line of an event with one choice whose delta is the JSON text
    [delta]. *)
Definition data_delta (delta : string) : string :=
  "data: {" ++ DQ ++ "choices" ++ DQ ++ ":[{" ++ DQ ++ "delta" ++ DQ ++ ":"
  ++ delta ++ "}]}".

(** The run gets as far as a generated message: the configuration loads and
    has a key, there are staged changes, and [streamCommitMessage], called
    after the banner, returns [msg] and leaves [out] on standard output. *)
Definition generates (env : Env) (w : World) (config : Config)
    (changes msg out : string) : Prop :=
  env_loadConfig env = inl config
  /\ APIKey (DeepSeek config) <> ""
  /\ getStagedChanges env = (changes, None)
  /\ streamCommitMessage env
       (stdout (printBanner w "AI Suggested Commit Message"))
       (APIKey (DeepSeek config))
       (buildPromptMessages changes (Prompt (DeepSeek config)))
       (Temperature (DeepSeek config))
     = ((msg, None), out).

(** The author that [createCommit] signs with. *)
Definition author (env : Env) : Signature :=
  {| Name := getGitConfig env "user.name";
     Email := getGitConfig env "user.email";
     When := env_Now env |}.

(** A world in which everything works: the configuration has the key [key]
    and no temperature, the staged changes are [diff], the server answers
    with [resp] and the commit gets the hash [abc123]. *)
Definition env_working (resp : Response) : Env :=
  {| env_loadConfig :=
       inl {| DeepSeek := {| APIKey := "key"; Temperature := None;
                             Prompt := None |} |};
     env_git_diff_cached := inl "diff";
     env_Do := fun _ => inl resp;
     env_Getwd := inl "/repo";
     env_PlainOpen := fun _ => None;
     env_Worktree := None;
     env_Commit := fun _ _ => inl "abc123";
     env_git_config := fun key => inl (key ++ " " ++ NL);
     env_Now := 0 |}.

Definition empty_world : World := {| stdout := ""; commits := [] |}.

(** The world of the witnesses: the server streams [hi] and a line feed. *)
Definition env_hi : Env :=
  env_working (ok_response [data_event "hi\n"; "data: [DONE]"] None).

Definition config_hi : Config :=
  {| DeepSeek := {| APIKey := "key"; Temperature := None; Prompt := None |} |}.

Definition out_hi : string :=
  snd (streamCommitMessage env_hi
         (stdout (printBanner empty_world "AI Suggested Commit Message"))
         "key" (buildPromptMessages "diff" None) None).

(** The float is a number: not NaN, not an infinity. *)
Definition is_number (f : float32) : bool :=
  match f with
  | S754_zero _ | S754_finite _ _ _ => true
  | S754_infinity _ | S754_nan => false
  end.

(** The temperature 0.75 of the witness: 3 * 2^-2. *)
Definition temperature_075 : float32 := S754_finite false 3 (-2).






(** How [strconv] writes the floats that are not numbers. *)
Definition not_a_number_text (t : float32) : string :=
  match t with
  | S754_nan => "NaN"
  | S754_infinity false => "+Inf"
  | S754_infinity true => "-Inf"
  | _ => ""
  end.

(** A world that works but for the staged changes, which are empty. *)
Definition env_nothing_staged : Env :=
  {| env_loadConfig := env_loadConfig env_hi;
     env_git_diff_cached := inl "";
     env_Do := env_Do env_hi;
     env_Getwd := env_Getwd env_hi;
     env_PlainOpen := env_PlainOpen env_hi;
     env_Worktree := env_Worktree env_hi;
     env_Commit := env_Commit env_hi;
     env_git_config := env_git_config env_hi;
     env_Now := env_Now env_hi |}.

(** A world that works but for the key, which the default configuration
    file leaves empty. *)
Definition env_no_key : Env :=
  {| env_loadConfig :=
       inl {| DeepSeek := {| APIKey := ""; Temperature := None;
                             Prompt := None |} |};
     env_git_diff_cached := env_git_diff_cached env_hi;
     env_Do := env_Do env_hi;
     env_Getwd := env_Getwd env_hi;
     env_PlainOpen := env_PlainOpen env_hi;
     env_Worktree := env_Worktree env_hi;
     env_Commit := env_Commit env_hi;
     env_git_config := env_git_config env_hi;
     env_Now := env_Now env_hi |}.

(** A world that works but for the git configuration, which has no
    identity. *)
Definition env_anonymous : Env :=
  {| env_loadConfig := env_loadConfig env_hi;
     env_git_diff_cached := env_git_diff_cached env_hi;
     env_Do := env_Do env_hi;
     env_Getwd := env_Getwd env_hi;
     env_PlainOpen := env_PlainOpen env_hi;
     env_Worktree := env_Worktree env_hi;
     env_Commit := env_Commit env_hi;
     env_git_config := fun _ => inr (errorString "exit status 1");
     env_Now := env_Now env_hi |}.

(** * Properties *)

(** ** UTF-8: decoding an encoded rune *)

Lemma all_from_spec (P : Z -> bool) (n : nat) :
  forall z, all_from n z P = true ->
  forall x, z <= x < z + Z.of_nat n -> P x = true.
Proof.
  induction n as [|k IH]; intros z H x Hx.
  - simpl in Hx. lia.
  - simpl in H. destruct (P z) eqn:Pz; [|discriminate].
    destruct (Z.eq_dec x z) as [->|Hne]; [exact Pz|].
    apply (IH (z + 1) H). lia.
Qed.

(** The runes of one and two bytes, checked one by one. *)
Lemma roundtrip_low : all_from 2048 0 roundtrip_ok = true.
Proof. vm_compute. reflexivity. Qed.

(** The runes of three and four bytes whose last six bits are zero, checked
    one by one; the other ones follow from them ([roundtrip_lift]). *)
Lemma roundtrip_high :
  all_from (Z.to_nat 17376) 32 (fun q => roundtrip_ok (64 * q)) = true.
Proof. vm_compute. reflexivity. Qed.

Lemma byte_val_to_byte (z : Z) : 0 <= z < 256 -> byte_val (to_byte z) = z.
Proof.
  intros Hz. unfold byte_val, to_byte. rewrite Z.mod_small by lia.
  rewrite N_ascii_embedding; [apply Z2N.id; lia|].
  change 256%N with (Z.to_N 256). apply Z2N.inj_lt; lia.
Qed.

Lemma lor_128_low (d : Z) : 0 <= d < 64 -> Z.lor 128 d = 128 + d.
Proof.
  intros Hd.
  assert (H : all_from 64 0 (fun x => Z.lor 128 x =? 128 + x) = true)
    by (vm_compute; reflexivity).
  apply Z.eqb_eq. apply (all_from_spec _ _ _ H). simpl. lia.
Qed.

Lemma land_63_low (d : Z) : 0 <= d < 64 -> Z.land (128 + d) 63 = d.
Proof.
  intros Hd.
  assert (H : all_from 64 0 (fun x => Z.land (128 + x) 63 =? x) = true)
    by (vm_compute; reflexivity).
  apply Z.eqb_eq. apply (all_from_spec _ _ _ H). simpl. lia.
Qed.

Lemma div64 (q d : Z) : 0 <= d < 64 -> (64 * q + d) / 64 = q.
Proof. intros Hd. symmetry. apply (Z.div_unique_pos _ 64 q d); lia. Qed.

Lemma mod64 (q d : Z) : 0 <= d < 64 -> (64 * q + d) mod 64 = d.
Proof. intros Hd. symmetry. apply (Z.mod_unique_pos _ 64 q d); lia. Qed.

Lemma shiftr_6 (q d : Z) : 0 <= d < 64 -> Z.shiftr (64 * q + d) 6 = q.
Proof.
  intros Hd. rewrite Z.shiftr_div_pow2 by lia.
  change (2 ^ 6) with 64. now apply div64.
Qed.

Lemma shiftr_12 (q d : Z) :
  0 <= d < 64 -> Z.shiftr (64 * q + d) 12 = Z.shiftr q 6.
Proof.
  intros Hd. change 12 with (6 + 6).
  rewrite <- Z.shiftr_shiftr by lia. now rewrite shiftr_6.
Qed.

Lemma shiftr_18 (q d : Z) :
  0 <= d < 64 -> Z.shiftr (64 * q + d) 18 = Z.shiftr q 12.
Proof.
  intros Hd. change 18 with (6 + 12).
  rewrite <- Z.shiftr_shiftr by lia. now rewrite shiftr_6.
Qed.

Lemma land_63 (q d : Z) : 0 <= d < 64 -> Z.land (64 * q + d) 63 = d.
Proof.
  intros Hd. change 63 with (Z.ones 6). rewrite Z.land_ones by lia.
  change (2 ^ 6) with 64. now apply mod64.
Qed.

(** Six low bits added to a multiple of 64. *)
Lemma lor_low (q d : Z) : 0 <= d < 64 -> Z.lor (64 * q) d = 64 * q + d.
Proof.
  intros Hd.
  assert (Hland : Z.land (64 * q) d = 0).
  { apply Z.bits_inj'. intros n Hn. rewrite Z.land_spec, Z.bits_0.
    destruct (Z_lt_dec n 6) as [Hlt|Hge].
    - replace (64 * q) with (q * 2 ^ 6) by (change (2 ^ 6) with 64; lia).
      rewrite Z.mul_pow2_bits_low by lia. reflexivity.
    - rewrite (Z.bits_above_log2 d n); [apply andb_false_r | lia |].
      destruct (Z.eq_dec d 0) as [->|Hd0]; [simpl; lia|].
      apply Z.log2_lt_pow2; [lia|].
      apply Z.lt_le_trans with (2 ^ 6); [change (2 ^ 6) with 64; lia|].
      apply Z.pow_le_mono_r; lia. }
  rewrite <- Z.lxor_lor by exact Hland.
  symmetry. apply Z.add_nocarry_lxor. exact Hland.
Qed.

Lemma rune_width_eqb_eq (x y : rune * nat) :
  rune_width_eqb x y = true -> x = y.
Proof.
  destruct x as [r w], y as [r' w']. unfold rune_width_eqb. simpl.
  intros H. apply andb_prop in H. destruct H as [H1 H2].
  apply Z.eqb_eq in H1. apply Nat.eqb_eq in H2. congruence.
Qed.

Lemma cont_128_low (d : Z) : 0 <= d < 64 -> utf8.cont (128 + d) = true.
Proof.
  intros Hd. unfold utf8.cont, utf8.locb, utf8.hicb.
  apply andb_true_intro. split; apply Z.leb_le; lia.
Qed.

(** The last byte of a sequence of three carries the six low bits. *)
Lemma decode4_last3 (b0 : Z) (o1 o3 : option Z) (x d : Z) :
  utf8.decode4 (Some b0) o1 (Some 128) o3 = (x, 3%nat) ->
  0 <= d < 64 ->
  utf8.decode4 (Some b0) o1 (Some (128 + d)) o3 = (Z.lor x d, 3%nat).
Proof.
  intros H Hd. unfold utf8.decode4 in *.
  destruct (b0 <? utf8.RuneSelf); [discriminate|].
  destruct (utf8.lead b0) as [[[sz lo] hi]|]; [|discriminate].
  destruct o1 as [b1|]; [|discriminate].
  destruct ((b1 <? lo) || (hi <? b1)); [discriminate|].
  destruct (sz <=? 2)%nat; [discriminate|].
  rewrite (cont_128_low d Hd). change (utf8.cont 128) with true in H.
  cbn [negb] in *.
  destruct (sz <=? 3)%nat.
  - injection H as <-. unfold utf8.maskx. rewrite (land_63_low d Hd).
    change (Z.land 128 63) with 0. now rewrite Z.lor_0_r.
  - destruct o3 as [b3|]; [|discriminate].
    destruct (negb (utf8.cont b3)); discriminate.
Qed.

(** The last byte of a sequence of four carries the six low bits. *)
Lemma decode4_last4 (b0 : Z) (o1 o2 : option Z) (x d : Z) :
  utf8.decode4 (Some b0) o1 o2 (Some 128) = (x, 4%nat) ->
  0 <= d < 64 ->
  utf8.decode4 (Some b0) o1 o2 (Some (128 + d)) = (Z.lor x d, 4%nat).
Proof.
  intros H Hd. unfold utf8.decode4 in *.
  destruct (b0 <? utf8.RuneSelf); [discriminate|].
  destruct (utf8.lead b0) as [[[sz lo] hi]|]; [|discriminate].
  destruct o1 as [b1|]; [|discriminate].
  destruct ((b1 <? lo) || (hi <? b1)); [discriminate|].
  destruct (sz <=? 2)%nat; [discriminate|].
  destruct o2 as [b2|]; [|discriminate].
  destruct (negb (utf8.cont b2)); [discriminate|].
  destruct (sz <=? 3)%nat; [discriminate|].
  rewrite (cont_128_low d Hd). change (utf8.cont 128) with true in H.
  cbn [negb] in *.
  injection H as <-. unfold utf8.maskx. rewrite (land_63_low d Hd).
  change (Z.land 128 63) with 0. now rewrite Z.lor_0_r.
Qed.

Lemma invalid_rune_EncodeRune (r : rune) :
  utf8.invalid_rune r = true -> utf8.EncodeRune r = utf8.enc3 utf8.RuneError.
Proof.
  intros Hinv. unfold utf8.EncodeRune. rewrite Hinv.
  unfold utf8.invalid_rune, utf8.MaxRune, utf8.surrogateMin,
    utf8.surrogateMax in Hinv.
  unfold utf8.rune1Max, utf8.rune2Max.
  destruct (0 <=? r) eqn:E0; cbn [andb]; [|reflexivity].
  destruct (r <=? 127) eqn:E1; destruct (r <=? 2047) eqn:E2; try reflexivity;
    exfalso; apply Z.leb_le in E0;
    try apply Z.leb_le in E1; try apply Z.leb_le in E2;
    destruct (r <? 0) eqn:F0; try (apply Z.ltb_lt in F0; lia);
    destruct (1114111 <? r) eqn:F1; try (apply Z.ltb_lt in F1; lia);
    destruct (55296 <=? r) eqn:F2; try (apply Z.leb_le in F2; lia);
    discriminate.
Qed.

(** [invalid_rune] between the bounds, as a proposition. *)
Lemma invalid_rune_spec (r : rune) :
  0 <= r <= utf8.MaxRune ->
  utf8.invalid_rune r = true <-> 55296 <= r <= 57343.
Proof.
  unfold utf8.invalid_rune, utf8.MaxRune, utf8.surrogateMin, utf8.surrogateMax.
  intros Hr.
  destruct (r <? 0) eqn:F0; [apply Z.ltb_lt in F0; lia|].
  destruct (1114111 <? r) eqn:F1; [apply Z.ltb_lt in F1; lia|].
  cbn [orb]. rewrite andb_true_iff, !Z.leb_le. tauto.
Qed.

(** The encoding of a rune of three or four bytes, by its branch. *)
Lemma EncodeRune_3 (r : rune) :
  2048 <= r <= 65535 -> utf8.invalid_rune r = false ->
  utf8.EncodeRune r = utf8.enc3 r.
Proof.
  intros Hr Hinv. unfold utf8.EncodeRune, utf8.rune1Max, utf8.rune2Max,
    utf8.rune3Max. rewrite Hinv.
  destruct (r <=? 127) eqn:E1; [apply Z.leb_le in E1; lia|].
  destruct (r <=? 2047) eqn:E2; [apply Z.leb_le in E2; lia|].
  destruct (r <=? 65535) eqn:E3; [|apply Z.leb_gt in E3; lia].
  now rewrite !andb_false_r.
Qed.

Lemma EncodeRune_4 (r : rune) :
  65536 <= r -> utf8.invalid_rune r = false ->
  utf8.EncodeRune r
  = String (to_byte (Z.lor utf8.t4 (Z.shiftr r 18)))
      (String (to_byte (Z.lor utf8.tx (Z.land (Z.shiftr r 12) utf8.maskx)))
         (String (to_byte (Z.lor utf8.tx (Z.land (Z.shiftr r 6) utf8.maskx)))
            (String (to_byte (Z.lor utf8.tx (Z.land r utf8.maskx))) EmptyString))).
Proof.
  intros Hr Hinv. unfold utf8.EncodeRune, utf8.rune1Max, utf8.rune2Max,
    utf8.rune3Max. rewrite Hinv.
  destruct (r <=? 127) eqn:E1; [apply Z.leb_le in E1; lia|].
  destruct (r <=? 2047) eqn:E2; [apply Z.leb_le in E2; lia|].
  destruct (r <=? 65535) eqn:E3; [apply Z.leb_le in E3; lia|].
  now rewrite !andb_false_r.
Qed.

(** From a rune whose six low bits are zero to the 64 runes above it. *)
Lemma roundtrip_lift (q d : Z) :
  32 <= q -> 0 <= d < 64 -> 64 * q + d <= utf8.MaxRune ->
  roundtrip_ok (64 * q) = true -> roundtrip_ok (64 * q + d) = true.
Proof.
  intros Hq Hd Hmax Hok. unfold utf8.MaxRune in Hmax.
  assert (Hr0 : 0 <= 64 * q <= utf8.MaxRune) by (unfold utf8.MaxRune; lia).
  assert (Hr : 0 <= 64 * q + d <= utf8.MaxRune) by (unfold utf8.MaxRune; lia).
  destruct (utf8.invalid_rune (64 * q)) eqn:Hinv0.
  - (* a surrogate: both runes are encoded as RuneError *)
    assert (Hinv : utf8.invalid_rune (64 * q + d) = true).
    { apply invalid_rune_spec; [exact Hr|].
      apply invalid_rune_spec in Hinv0; [lia | exact Hr0]. }
    unfold roundtrip_ok, sanitize. rewrite Hinv.
    rewrite (invalid_rune_EncodeRune _ Hinv).
    change (no_LF (utf8.enc3 utf8.RuneError)) with true.
    rewrite orb_true_r. reflexivity.
  - assert (Hinv : utf8.invalid_rune (64 * q + d) = false).
    { destruct (utf8.invalid_rune (64 * q + d)) eqn:E; [|reflexivity].
      apply invalid_rune_spec in E; [|exact Hr].
      assert (Hn : ~ (55296 <= 64 * q <= 57343)).
      { intros Hs. apply invalid_rune_spec in Hs; [congruence | exact Hr0]. }
      lia. }
    assert (Hne10 : (64 * q + d =? 10) = false) by (apply Z.eqb_neq; lia).
    unfold roundtrip_ok, sanitize in *. rewrite Hinv. rewrite Hinv0 in Hok.
    rewrite Hne10. cbn [orb].
    apply andb_prop in Hok. destruct Hok as [Hok HLF].
    apply andb_prop in Hok. destruct Hok as [Hdec _].
    apply rune_width_eqb_eq in Hdec.
    replace (64 * q =? 10) with false in HLF by (symmetry; apply Z.eqb_neq; lia).
    cbn [orb] in HLF.
    destruct (Z_le_dec (64 * q) 65535) as [H3|H4].
    + (* three bytes *)
      rewrite (EncodeRune_3 (64 * q + d)) by (try exact Hinv; lia).
      rewrite (EncodeRune_3 (64 * q)) in Hdec, HLF by (try exact Hinv0; lia).
      unfold utf8.enc3, utf8.maskx, utf8.tx in *.
      rewrite shiftr_12, shiftr_6, land_63 by exact Hd.
      replace (64 * q) with (64 * q + 0) in Hdec at 1 2 3 by lia.
      replace (64 * q) with (64 * q + 0) in HLF by lia.
      rewrite shiftr_12, shiftr_6, land_63 in Hdec, HLF by lia.
      rewrite (lor_128_low d Hd).
      change (Z.lor 128 0) with 128 in Hdec, HLF.
      unfold utf8.DecodeRuneInString in *.
      cbn [byte_at String.length no_LF] in *.
      rewrite (byte_val_to_byte (128 + d)) by lia.
      change (byte_val (to_byte 128)) with 128 in Hdec, HLF.
      rewrite (decode4_last3 _ _ _ _ d Hdec Hd).
      rewrite lor_low by exact Hd.
      apply andb_prop in HLF. destruct HLF as [HLF0 HLF].
      apply andb_prop in HLF. destruct HLF as [HLF1 _].
      rewrite HLF0, HLF1.
      unfold rune_width_eqb. cbn [fst snd Nat.eqb].
      rewrite Z.eqb_refl, andb_false_r.
      replace (128 + d =? 10) with false by (symmetry; apply Z.eqb_neq; lia).
      reflexivity.
    + (* four bytes *)
      rewrite (EncodeRune_4 (64 * q + d)) by (try exact Hinv; lia).
      rewrite (EncodeRune_4 (64 * q)) in Hdec, HLF by (try exact Hinv0; lia).
      unfold utf8.maskx, utf8.tx in *.
      rewrite shiftr_18, shiftr_12, shiftr_6, land_63 by exact Hd.
      replace (64 * q) with (64 * q + 0) in Hdec at 1 2 3 4 by lia.
      replace (64 * q) with (64 * q + 0) in HLF by lia.
      rewrite shiftr_18, shiftr_12, shiftr_6, land_63 in Hdec, HLF by lia.
      rewrite (lor_128_low d Hd).
      change (Z.lor 128 0) with 128 in Hdec, HLF.
      unfold utf8.DecodeRuneInString in *.
      cbn [byte_at String.length no_LF] in *.
      rewrite (byte_val_to_byte (128 + d)) by lia.
      change (byte_val (to_byte 128)) with 128 in Hdec, HLF.
      rewrite (decode4_last4 _ _ _ _ d Hdec Hd).
      rewrite lor_low by exact Hd.
      apply andb_prop in HLF. destruct HLF as [HLF0 HLF].
      apply andb_prop in HLF. destruct HLF as [HLF1 HLF].
      apply andb_prop in HLF. destruct HLF as [HLF2 _].
      rewrite HLF0, HLF1, HLF2.
      unfold rune_width_eqb. cbn [fst snd Nat.eqb].
      rewrite Z.eqb_refl, andb_false_r.
      replace (128 + d =? 10) with false by (symmetry; apply Z.eqb_neq; lia).
      reflexivity.
Qed.

Lemma roundtrip_ok_range (r : rune) :
  0 <= r <= utf8.MaxRune -> roundtrip_ok r = true.
Proof.
  intros Hr. unfold utf8.MaxRune in Hr.
  destruct (Z_lt_dec r 2048) as [Hlow|Hhigh].
  - apply (all_from_spec roundtrip_ok _ 0 roundtrip_low). simpl. lia.
  - pose proof (Z.div_mod r 64 ltac:(lia)) as Hdm.
    pose proof (Z.mod_pos_bound r 64 ltac:(lia)) as Hm.
    rewrite Hdm. apply roundtrip_lift; try lia.
    + unfold utf8.MaxRune. lia.
    + apply (all_from_spec _ _ 32 roundtrip_high (r / 64)).
      rewrite Z2Nat.id by lia. lia.
Qed.

(** A rune out of range is encoded as [RuneError]. *)
Lemma EncodeRune_out_of_range (r : rune) :
  ~ (0 <= r <= utf8.MaxRune) ->
  utf8.EncodeRune r = utf8.EncodeRune utf8.RuneError
  /\ sanitize r = utf8.RuneError.
Proof.
  intros Hr. unfold utf8.MaxRune in Hr.
  assert (Hinv : utf8.invalid_rune r = true).
  { unfold utf8.invalid_rune, utf8.MaxRune.
    destruct (r <? 0) eqn:E1; [reflexivity|].
    destruct (1114111 <? r) eqn:E2; [reflexivity|].
    apply Z.ltb_ge in E1. apply Z.ltb_ge in E2. lia. }
  split.
  - unfold utf8.EncodeRune. rewrite Hinv.
    unfold utf8.rune1Max, utf8.rune2Max.
    destruct (0 <=? r) eqn:E0; simpl.
    + apply Z.leb_le in E0.
      destruct (r <=? 127) eqn:E1; [apply Z.leb_le in E1; lia|].
      destruct (r <=? 2047) eqn:E2; [apply Z.leb_le in E2; lia|].
      reflexivity.
    + reflexivity.
  - unfold sanitize. rewrite Hinv. reflexivity.
Qed.

(** The width that [decode4] returns is at most four... *)
Lemma decode4_width_le (o0 o1 o2 o3 : option Z) :
  (snd (utf8.decode4 o0 o1 o2 o3) <= 4)%nat.
Proof. unfold utf8.decode4. break_decode4; simpl; lia. Qed.

(** ... and the bytes past that width are not looked at, unless the result
    is the error of width one. *)
Lemma decode4_prefix (b0 : Z) (o1 o2 o3 : option Z) (r : rune) (w : nat) :
  utf8.decode4 (Some b0) o1 o2 o3 = (r, w) ->
  (r, w) <> (utf8.RuneError, 1%nat) ->
  match w with
  | 1%nat => forall x1 x2 x3, utf8.decode4 (Some b0) x1 x2 x3 = (r, w)
  | 2%nat => forall x2 x3, utf8.decode4 (Some b0) o1 x2 x3 = (r, w)
  | 3%nat => forall x3, utf8.decode4 (Some b0) o1 o2 x3 = (r, w)
  | _ => True
  end.
Proof.
  unfold utf8.decode4.
  destruct (b0 <? utf8.RuneSelf).
  { intros H _. injection H as <- <-. reflexivity. }
  destruct (utf8.lead b0) as [[[sz lo] hi]|]; [|intros H N; congruence].
  destruct o1 as [b1|]; [|intros H N; congruence].
  destruct ((b1 <? lo) || (hi <? b1)); [intros H N; congruence|].
  destruct (sz <=? 2)%nat.
  { intros H _. injection H as <- <-. reflexivity. }
  destruct o2 as [b2|]; [|intros H N; congruence].
  destruct (negb (utf8.cont b2)); [intros H N; congruence|].
  destruct (sz <=? 3)%nat.
  { intros H _. injection H as <- <-. reflexivity. }
  destruct o3 as [b3|]; [|intros H N; congruence].
  destruct (negb (utf8.cont b3)); [intros H N; congruence|].
  intros H _. injection H as <- <-. exact I.
Qed.

(** A string that decodes as a whole to one rune still decodes to it when
    more bytes follow. *)
Lemma DecodeRune_prefix (e rest : string) (r : rune) :
  utf8.DecodeRuneInString e = (r, String.length e) ->
  e <> EmptyString ->
  (r, String.length e) <> (utf8.RuneError, 1%nat) ->
  utf8.DecodeRuneInString (e ++ rest) = (r, String.length e).
Proof.
  unfold utf8.DecodeRuneInString.
  destruct e as [|c0 [|c1 [|c2 [|c3 [|c4 e]]]]]; intros H Hne Herr;
    cbn [byte_at String.length append] in *.
  - congruence.
  - exact (decode4_prefix _ _ _ _ _ _ H Herr _ _ _).
  - exact (decode4_prefix _ _ _ _ _ _ H Herr _ _).
  - exact (decode4_prefix _ _ _ _ _ _ H Herr _).
  - exact H.
  - exfalso.
    pose proof (decode4_width_le (Some (byte_val c0)) (Some (byte_val c1))
                  (Some (byte_val c2)) (Some (byte_val c3))) as Hw.
    rewrite H in Hw. simpl in Hw. lia.
Qed.

Lemma EncodeRune_nonempty (r : rune) : utf8.EncodeRune r <> EmptyString.
Proof.
  unfold utf8.EncodeRune, utf8.enc3, str1.
  repeat match goal with |- context [if ?c then _ else _] => destruct c end;
    discriminate.
Qed.

(** Decoding what [EncodeRune] wrote gives the rune back, whatever follows. *)
Lemma DecodeRune_EncodeRune (r : rune) (rest : string) :
  utf8.DecodeRuneInString (utf8.EncodeRune r ++ rest)
  = (sanitize r, String.length (utf8.EncodeRune r)).
Proof.
  assert (Hin : forall x, 0 <= x <= utf8.MaxRune ->
            utf8.DecodeRuneInString (utf8.EncodeRune x ++ rest)
            = (sanitize x, String.length (utf8.EncodeRune x))).
  { intros x Hx. pose proof (roundtrip_ok_range x Hx) as Hok.
    unfold roundtrip_ok in Hok.
    apply andb_prop in Hok. destruct Hok as [Hok _].
    apply andb_prop in Hok. destruct Hok as [Hdec Hne].
    apply rune_width_eqb_eq in Hdec.
    apply DecodeRune_prefix.
    - exact Hdec.
    - apply EncodeRune_nonempty.
    - intros Heq. rewrite Heq in Hne. vm_compute in Hne. discriminate. }
  destruct (Z_le_dec 0 r) as [H0|H0]; [destruct (Z_le_dec r utf8.MaxRune) as [H1|H1]|].
  - apply Hin. lia.
  - destruct (EncodeRune_out_of_range r) as [-> ->]; [lia|].
    apply (Hin utf8.RuneError). unfold utf8.RuneError, utf8.MaxRune. lia.
  - destruct (EncodeRune_out_of_range r) as [-> ->]; [lia|].
    apply (Hin utf8.RuneError). unfold utf8.RuneError, utf8.MaxRune. lia.
Qed.

(** ** Strings *)

Lemma append_nil_r (s : string) : (s ++ "")%string = s.
Proof. induction s as [|c s IH]; simpl; [reflexivity | now rewrite IH]. Qed.

Lemma append_assoc (s t u : string) :
  ((s ++ t) ++ u)%string = (s ++ (t ++ u))%string.
Proof. induction s as [|c s IH]; simpl; [reflexivity | now rewrite IH]. Qed.

Lemma length_append (s t : string) :
  String.length (s ++ t) = (String.length s + String.length t)%nat.
Proof. induction s as [|c s IH]; simpl; [reflexivity | now rewrite IH]. Qed.

Lemma join_app (l1 l2 : list string) :
  join (l1 ++ l2)%list = (join l1 ++ join l2)%string.
Proof.
  induction l1 as [|x l1 IH]; simpl; [reflexivity|].
  now rewrite IH, append_assoc.
Qed.


(** ** The [range] clause on well-formed strings *)

Lemma range_from_skip (e s : string) :
  forall i, range_from (String.length e) i (e ++ s)
            = range_from 0 (i + len e) s.
Proof.
  induction e as [|c e IH]; intros i.
  - simpl. unfold len. simpl. now rewrite Z.add_0_r.
  - cbn [String.length append range_from]. rewrite IH. f_equal.
    unfold len. cbn [String.length]. lia.
Qed.

Lemma range_from_EncodeRune (r : rune) (s : string) (i : Z) :
  range_from 0 i (utf8.EncodeRune r ++ s)
  = (i, sanitize r) :: range_from 0 (i + len (utf8.EncodeRune r)) s.
Proof.
  pose proof (DecodeRune_EncodeRune r s) as Hdec.
  pose proof (EncodeRune_nonempty r) as Hne.
  destruct (utf8.EncodeRune r) as [|c e]; [congruence|].
  cbn [append range_from]. cbn [append] in Hdec. rewrite Hdec.
  cbn [String.length Nat.pred]. rewrite range_from_skip. do 2 f_equal.
  unfold len. cbn [String.length]. lia.
Qed.

(** The runes that [range] yields do not depend on the index it starts
    from. *)
Lemma range_from_runes_shift (s : string) :
  forall k i j,
    map snd (range_from k i s) = map snd (range_from k j s).
Proof.
  induction s as [|c s IH]; intros k i j; [reflexivity|].
  cbn [range_from]. destruct k as [|k].
  - destruct (utf8.DecodeRuneInString (String c s)) as [r w].
    cbn [map snd]. f_equal. apply IH.
  - apply IH.
Qed.

Lemma runes_EncodeRune (r : rune) (s : string) :
  runes (utf8.EncodeRune r ++ s) = sanitize r :: runes s.
Proof.
  unfold runes, range. rewrite range_from_EncodeRune. cbn [map snd].
  f_equal. apply range_from_runes_shift.
Qed.

Lemma runes_string_of_runes (rs : list rune) (s : string) :
  runes (string_of_runes rs ++ s) = (map sanitize rs ++ runes s)%list.
Proof.
  induction rs as [|r rs IH]; [reflexivity|].
  cbn [string_of_runes fold_right map app].
  rewrite append_assoc, runes_EncodeRune. f_equal. exact IH.
Qed.




Lemma runes_app (t1 t2 : string) :
  well_formed t1 -> runes (t1 ++ t2) = (runes t1 ++ runes t2)%list.
Proof.
  intros [rs ->]. rewrite runes_string_of_runes. f_equal.
  rewrite <- (append_nil_r (string_of_runes rs)).
  rewrite runes_string_of_runes. change (runes "") with (@nil rune).
  now rewrite app_nil_r.
Qed.




(** ** The accumulator *)

Lemma process_line_chunk (a : Accumulator) (line : string) :
  process_line a line = match line_chunk line with
                        | Some chunk => process_chunk a chunk
                        | None => a
                        end.
Proof.
  unfold process_line, line_chunk.
  destruct (strings.HasPrefix line "data:" && negb (String.eqb line "data: [DONE]"));
    [|reflexivity].
  cbv zeta.
  destruct (String.eqb (strings.TrimSpace (drop 5 line)) ""); reflexivity.
Qed.




Lemma feed_nil (a : Accumulator) : feed a "" = a.
Proof. reflexivity. Qed.

Lemma feed_app (a : Accumulator) (t1 t2 : string) :
  well_formed t1 -> feed a (t1 ++ t2) = feed (feed a t1) t2.
Proof.
  intros Hwf. unfold feed. rewrite (runes_app _ _ Hwf). apply fold_left_app.
Qed.

Lemma feed_join (ls : list string) :
  Forall well_formed ls ->
  forall a, fold_left feed ls a = feed a (join ls).
Proof.
  induction 1 as [|x l Hx Hl IH]; intros a; cbn [fold_left join fold_right].
  - reflexivity.
  - rewrite IH. now rewrite feed_app.
Qed.

Lemma process_chunk_fragments (chunk : StreamResponseChunk) (a : Accumulator) :
  process_chunk a chunk = fold_left feed (chunk_fragments chunk) a.
Proof.
  unfold process_chunk, chunk_fragments.
  revert a. induction (Choices chunk) as [|c cs IH]; intros a; [reflexivity|].
  cbn [fold_left flat_map]. rewrite fold_left_app, IH. f_equal.
  unfold process_choice. destruct (Content (Delta c)); reflexivity.
Qed.

Lemma process_lines_fragments (lines : list string) :
  forall a, fold_left process_line lines a = fold_left feed (fragments lines) a.
Proof.
  induction lines as [|l ls IH]; intros a; [reflexivity|].
  cbn [fold_left fragments flat_map]. rewrite fold_left_app.
  fold (fragments ls). rewrite IH. f_equal.
  rewrite process_line_chunk.
  destruct (line_chunk l); [apply process_chunk_fragments | reflexivity].
Qed.

(** ** What the decoder delivers is well-formed *)

Lemma store_object_invariant {A : Type} (P : A -> Prop)
    (field : A -> list rune -> json.value -> option A) :
  (forall a k v a', P a -> field a k v = Some a' -> P a') ->
  forall ms a a', P a -> store_object field ms a = Some a' -> P a'.
Proof.
  intros Hf. induction ms as [|[k v] ms IH]; intros a a' Ha H; simpl in H.
  - now injection H as <-.
  - destruct (field a k v) as [a1|] eqn:E; [|discriminate].
    exact (IH a1 a' (Hf _ _ _ _ Ha E) H).
Qed.

Lemma store_DeltaMessage_wf (old d : DeltaMessage) (v : json.value) :
  well_formed_delta old -> store_DeltaMessage old v = Some d ->
  well_formed_delta d.
Proof.
  intros Hold H. destruct v; simpl in H; try discriminate.
  - now injection H as <-.
  - revert H. apply store_object_invariant; [|exact Hold].
    intros a k x a' Ha Hx.
    destruct (json.key_matches k "content"); [|now injection Hx as <-].
    destruct x; simpl in Hx; try discriminate; injection Hx as <-.
    + exact I.
    + unfold well_formed_delta. simpl. now exists rs.
Qed.

Lemma store_StreamChoice_wf (old c : StreamChoice) (v : json.value) :
  well_formed_choice old -> store_StreamChoice old v = Some c ->
  well_formed_choice c.
Proof.
  intros Hold H. destruct v; simpl in H; try discriminate.
  - now injection H as <-.
  - revert H. apply store_object_invariant; [|exact Hold].
    intros a k x a' Ha Hx.
    destruct (json.key_matches k "delta"); [|now injection Hx as <-].
    destruct (store_DeltaMessage (Delta a) x) as [d|] eqn:E; [|discriminate].
    injection Hx as <-. exact (store_DeltaMessage_wf _ _ _ Ha E).
Qed.

Lemma store_elems_wf (elems : list json.value) :
  forall old cs, Forall well_formed_choice old ->
    store_elems elems old = Some cs -> Forall well_formed_choice cs.
Proof.
  induction elems as [|e es IH]; intros old cs Hold H; simpl in H.
  - injection H as <-. constructor.
  - destruct old as [|o os].
    + destruct (store_StreamChoice _ e) as [c|] eqn:E; [|discriminate].
      destruct (store_elems es []) as [cs'|] eqn:E'; [|discriminate].
      injection H as <-. constructor.
      * exact (store_StreamChoice_wf {| Delta := {| Content := None |} |} _ _ I E).
      * exact (IH _ _ (Forall_nil _) E').
    + destruct (store_StreamChoice o e) as [c|] eqn:E; [|discriminate].
      destruct (store_elems es os) as [cs'|] eqn:E'; [|discriminate].
      injection H as <-. inversion Hold; subst. constructor.
      * exact (store_StreamChoice_wf _ _ _ H1 E).
      * exact (IH _ _ H2 E').
Qed.

Lemma Unmarshal_chunk_wf (jsonStr : string) (chunk : StreamResponseChunk) :
  Unmarshal_chunk jsonStr = Some chunk ->
  Forall well_formed_choice (Choices chunk).
Proof.
  unfold Unmarshal_chunk. destruct (json.Unmarshal_value jsonStr) as [v|];
    [|discriminate].
  intros H. destruct v; simpl in H; try discriminate.
  - injection H as <-. constructor.
  - revert H.
    apply (store_object_invariant
             (fun c => Forall well_formed_choice (Choices c))); [|constructor].
    intros a k x a' Ha Hx.
    destruct (json.key_matches k "choices"); [|now injection Hx as <-].
    destruct (store_Choices (Choices a) x) as [cs|] eqn:E; [|discriminate].
    injection Hx as <-. simpl.
    destruct x; simpl in E; try discriminate.
    + injection E as <-. constructor.
    + exact (store_elems_wf _ _ _ Ha E).
Qed.

Lemma chunk_fragments_wf (chunk : StreamResponseChunk) :
  Forall well_formed_choice (Choices chunk) ->
  Forall well_formed (chunk_fragments chunk).
Proof.
  unfold chunk_fragments. induction 1 as [|c cs Hc Hcs IH]; [constructor|].
  cbn [flat_map]. apply Forall_app. split; [|exact IH].
  unfold well_formed_choice, well_formed_delta in Hc.
  destruct (Content (Delta c)); [repeat constructor; exact Hc | constructor].
Qed.

(** Every content string that the lines of a response deliver is
    well-formed UTF-8: [json.Unmarshal] writes no other strings. *)
Lemma fragments_wf (lines : list string) : Forall well_formed (fragments lines).
Proof.
  unfold fragments. induction lines as [|l ls IH]; [constructor|].
  cbn [flat_map]. apply Forall_app. split; [|exact IH].
  destruct (line_chunk l) as [chunk|] eqn:E; [|constructor].
  apply chunk_fragments_wf. unfold line_chunk in E.
  destruct (strings.HasPrefix l "data:" && negb (String.eqb l "data: [DONE]"));
    [|discriminate].
  cbv zeta in E.
  destruct (String.eqb (strings.TrimSpace (drop 5 l)) ""); [discriminate|].
  exact (Unmarshal_chunk_wf _ _ E).
Qed.

(** The scanner loop is the loop over the runes of all delivered text. *)
Lemma process_lines_feed (lines : list string) (a : Accumulator) :
  fold_left process_line lines a = feed a (join (fragments lines)).
Proof.
  rewrite process_lines_fragments. apply feed_join. apply fragments_wf.
Qed.

(** ** The exchange with the server *)

Lemma streamCommitMessage_answered (env : Env) (out apiKey : string)
    (messages : list ChatMessage) (temperature : option float32)
    (resp : Response) :
  answers env apiKey messages temperature resp ->
  streamCommitMessage env out apiKey messages temperature
  = if negb (StatusCode resp =? StatusOK)
    then (("", Some (Errorf_s "API failed: " (ReadAll (Body resp)))), out)
    else assemble (Body resp) out.
Proof.
  intros [jsonData [Hm Hdo]]. unfold streamCommitMessage.
  rewrite Hm. cbv zeta. rewrite Hdo. reflexivity.
Qed.

Lemma streamCommitMessage_delivered (env : Env) (out apiKey : string)
    (messages : list ChatMessage) (temperature : option float32)
    (lines : list string) (err : option error) :
  delivers env apiKey messages temperature lines err ->
  streamCommitMessage env out apiKey messages temperature
  = let a := flush_remaining
               (fold_left process_line lines (new_accumulator out)) in
    match err with
    | Some e => (("", Some e), console a)
    | None => ((fullMessage a, None), console a)
    end.
Proof.
  intros [resp [Hans [Hst [Hl He]]]].
  rewrite (streamCommitMessage_answered _ _ _ _ _ _ Hans).
  rewrite Hst. change (negb (StatusOK =? StatusOK)) with false. cbv iota.
  unfold assemble. rewrite Hl, He. reflexivity.
Qed.

Lemma env_serving_delivers (apiKey : string) (messages : list ChatMessage)
    (lines : list string) (err : option error) :
  delivers (env_serving (ok_response lines err)) apiKey messages None lines err.
Proof.
  exists (ok_response lines err).
  split; [|split; [|split]]; try reflexivity.
  eexists. split; reflexivity.
Qed.




(** ** The properties of the specification *)





Lemma process_line_skipped (a : Accumulator) (line : string) :
  line_chunk line = None -> process_line a line = a.
Proof. intros H. now rewrite process_line_chunk, H. Qed.

Lemma line_chunk_malformed (line : string) :
  Unmarshal_chunk (strings.TrimSpace (drop 5 line)) = None ->
  line_chunk line = None.
Proof.
  intros H. unfold line_chunk.
  destruct (strings.HasPrefix line "data:" && negb (String.eqb line "data: [DONE]"));
    [|reflexivity].
  cbv zeta. rewrite H.
  now destruct (String.eqb (strings.TrimSpace (drop 5 line)) "").
Qed.

(** C3. A data line whose payload does not decode is skipped: the run with
    the line returns the same message and the same error, and prints the
    same output, as the run without it, whatever precedes and follows the
    line.  The stream of the bad line, the event [hi\n] and the [DONE] line
    returns the message [hi] followed by a line feed. *)
Theorem C3_malformed_event_skipped :
  (forall (env1 env2 : Env) (out apiKey : string)
          (messages : list ChatMessage) (temperature : option float32)
          (pre post : list string) (bad : string) (err : option error),
      strings.HasPrefix bad "data:" = true ->
      Unmarshal_chunk (strings.TrimSpace (drop 5 bad)) = None ->
      delivers env1 apiKey messages temperature (pre ++ bad :: post)%list err ->
      delivers env2 apiKey messages temperature (pre ++ post)%list err ->
      streamCommitMessage env1 out apiKey messages temperature
      = streamCommitMessage env2 out apiKey messages temperature)
  /\ (forall (env : Env) (out apiKey : string)
             (messages : list ChatMessage) (temperature : option float32),
         delivers env apiKey messages temperature
                  ["data: {bad json}"; data_event "hi\n"; "data: [DONE]"] None ->
         streamCommitMessage env out apiKey messages temperature
         = (("hi" ++ NL, None), out ++ "| hi" ++ NL)).
Proof.
  split.
  - intros env1 env2 out apiKey messages temperature pre post bad err
           _ Hbad H1 H2.
    rewrite (streamCommitMessage_delivered _ _ _ _ _ _ _ H1).
    rewrite (streamCommitMessage_delivered _ _ _ _ _ _ _ H2).
    rewrite !fold_left_app. cbn [fold_left].
    now rewrite (process_line_skipped _ bad (line_chunk_malformed _ Hbad)).
  - intros env out apiKey messages temperature Hd.
    rewrite (streamCommitMessage_delivered _ _ _ _ _ _ _ Hd).
    rewrite process_lines_feed.
    replace (join (fragments ["data: {bad json}"; data_event "hi\n"; "data: [DONE]"]))
      with ("hi" ++ NL) by (vm_compute; reflexivity).
    reflexivity.
Qed.

Lemma C3_malformed_event_skipped_witness :
  streamCommitMessage
    (env_serving (ok_response ["data: {bad json}"; data_event "hi\n";
                               "data: [DONE]"] None)) "" "key" [] None
  = streamCommitMessage
      (env_serving (ok_response [data_event "hi\n"; "data: [DONE]"] None))
      "" "key" [] None
  /\ streamCommitMessage
       (env_serving (ok_response ["data: {bad json}"; data_event "hi\n";
                                  "data: [DONE]"] None)) "" "key" [] None
     = (("hi" ++ NL, None), "| hi" ++ NL).
Proof.
  split.
  - apply (proj1 C3_malformed_event_skipped _ _ "" "key" [] None
             [] [data_event "hi\n"; "data: [DONE]"] "data: {bad json}" None).
    + reflexivity.
    + vm_compute. reflexivity.
    + apply env_serving_delivers.
    + apply env_serving_delivers.
  - apply (proj2 C3_malformed_event_skipped _ "" "key" [] None).
    apply env_serving_delivers.
Defined.

(** C4, as the specification states it, fails: for the status 500 and the
    body [oops] the text of the error is not the body. *)
Lemma C4_diagnostic_is_not_the_body :
  exists err,
    fst (streamCommitMessage (env_serving (error_response 500 "oops"))
                             "" "key" [] None) = ("", Some err)
    /\ Error err <> ReadAll (Body (error_response 500 "oops")).
Proof.
  eexists. split; [reflexivity|]. vm_compute. discriminate.
Qed.

(** C4, amended. For every response whose status is not 200,
    [streamCommitMessage] returns the empty message and an error whose text
    is [API failed: ] followed by the response body, and prints nothing. *)
Theorem C4_non_success_status
    (env : Env) (out apiKey : string) (messages : list ChatMessage)
    (temperature : option float32) (resp : Response) :
  answers env apiKey messages temperature resp ->
  StatusCode resp <> StatusOK ->
  exists err,
    streamCommitMessage env out apiKey messages temperature
    = (("", Some err), out)
    /\ Error err = "API failed: " ++ ReadAll (Body resp).
Proof.
  intros Hans Hst. rewrite (streamCommitMessage_answered _ _ _ _ _ _ Hans).
  apply Z.eqb_neq in Hst. rewrite Hst. cbn [negb].
  eexists. split; reflexivity.
Qed.

Lemma C4_non_success_status_witness :
  exists err,
    streamCommitMessage (env_serving (error_response 500 "oops"))
                        "" "key" [] None = (("", Some err), "")
    /\ Error err = "API failed: oops".
Proof.
  apply (C4_non_success_status (env_serving (error_response 500 "oops"))
           "" "key" [] None (error_response 500 "oops")).
  - eexists. split; reflexivity.
  - discriminate.
Defined.




Lemma process_chunk_no_text (chunk : StreamResponseChunk) :
  (forall c, In c (Choices chunk) ->
             Content (Delta c) = None \/ Content (Delta c) = Some "") ->
  forall a, process_chunk a chunk = a.
Proof.
  unfold process_chunk. induction (Choices chunk) as [|c cs IH]; intros H a.
  - reflexivity.
  - cbn [fold_left].
    assert (Hc : process_choice a c = a).
    { unfold process_choice.
      destruct (H c (or_introl eq_refl)) as [-> | ->]; reflexivity. }
    rewrite Hc. apply IH. intros c' Hin. apply H. now right.
Qed.

(** C6. A choice whose content field is absent is skipped and changes
    neither the accumulator nor the console; a choice whose content is
    present runs the loop over its characters, and for the empty string the
    loop appends nothing; an event made of such choices leaves the
    accumulator as it is, and a stream made of such events returns the empty
    message and no error.  On the wire, a delta without the field decodes to
    the absent content and a delta with the empty string to the present,
    empty content. *)
Theorem C6_absent_and_empty_content :
  (forall a, process_choice a (choice_of None) = a)
  /\ (forall a content,
        process_choice a (choice_of (Some content))
        = fold_left write_rune (runes content) a)
  /\ (forall a, process_choice a (choice_of (Some "")) = a)
  /\ (forall chunk a,
        (forall c, In c (Choices chunk) ->
                   Content (Delta c) = None \/ Content (Delta c) = Some "") ->
        process_chunk a chunk = a)
  /\ line_chunk (data_delta "{}") = Some {| Choices := [choice_of None] |}
  /\ line_chunk (data_event "") = Some {| Choices := [choice_of (Some "")] |}
  /\ (forall (env : Env) (out apiKey : string) (messages : list ChatMessage)
             (temperature : option float32),
         delivers env apiKey messages temperature
                  [data_delta "{}"; data_event ""; "data: [DONE]"] None ->
         streamCommitMessage env out apiKey messages temperature
         = (("", None), out)).
Proof.
  split; [reflexivity|]. split; [reflexivity|]. split; [reflexivity|].
  split; [|split; [|split]].
  - intros chunk a H. now apply process_chunk_no_text.
  - vm_compute. reflexivity.
  - vm_compute. reflexivity.
  - intros env out apiKey messages temperature Hd.
    rewrite (streamCommitMessage_delivered _ _ _ _ _ _ _ Hd).
    rewrite process_lines_feed.
    replace (join (fragments [data_delta "{}"; data_event ""; "data: [DONE]"]))
      with "" by (vm_compute; reflexivity).
    reflexivity.
Qed.

Lemma C6_absent_and_empty_content_witness :
  process_chunk (new_accumulator "")
    {| Choices := [choice_of None; choice_of (Some "")] |}
  = new_accumulator ""
  /\ streamCommitMessage
       (env_serving (ok_response [data_delta "{}"; data_event "";
                                  "data: [DONE]"] None)) "" "key" [] None
     = (("", None), "").
Proof.
  destruct C6_absent_and_empty_content as [_ [_ [_ [Hchunk [_ [_ Hrun]]]]]].
  split.
  - apply Hchunk. intros c [<- | [<- | []]]; [left | right]; reflexivity.
  - apply Hrun. apply env_serving_delivers.
Defined.

(** C7. When the scanner reports a read failure, [streamCommitMessage]
    returns that error and the empty message, whatever the lines read before
    the failure have delivered. *)
Theorem C7_read_failure
    (env : Env) (out apiKey : string) (messages : list ChatMessage)
    (temperature : option float32) (lines : list string) (err : error) :
  delivers env apiKey messages temperature lines (Some err) ->
  fst (streamCommitMessage env out apiKey messages temperature)
  = ("", Some err).
Proof.
  intros Hd. now rewrite (streamCommitMessage_delivered _ _ _ _ _ _ _ Hd).
Qed.

Lemma C7_read_failure_witness :
  fst (streamCommitMessage
         (env_serving (ok_response [data_event "lost\n"; data_event "too"]
                         (Some (errorString "unexpected EOF"))))
         "" "key" [] None)
  = ("", Some (errorString "unexpected EOF")).
Proof.
  apply (C7_read_failure _ "" "key" [] None
           [data_event "lost\n"; data_event "too"]).
  apply env_serving_delivers.
Defined.

(** ** [runCommit] *)

Lemma runCommit_generated (env : Env) (applyFlag : bool) (w : World)
    (config : Config) (changes msg out : string) :
  generates env w config changes msg out ->
  runCommit env applyFlag w
  = let w1 := {| stdout := out; commits := commits w |} in
    if applyFlag then
      match createCommit env w1 (strings.TrimSpace msg) with
      | ((_, Some err), w2) => (Some (Errorf_w "failed to create commit: " err), w2)
      | ((commitID, None), w2) =>
        (None, print (printBanner w2 (check_mark ++ " Commit Successful"))
                     ("Commit ID: " ++ commitID ++ NL ++ NL))
      end
    else (None, w1).
Proof.
  intros [Hc [Hk [Hs Hg]]]. unfold runCommit. rewrite Hc.
  apply String.eqb_neq in Hk. rewrite Hk, Hs. cbv zeta.
  cbn [stdout] in Hg |- *. rewrite Hg. cbv iota beta.
  destruct applyFlag; [|reflexivity].
  destruct (createCommit _ _ _) as [[commitID [err|]] w2]; reflexivity.
Qed.

Lemma createCommit_commits (env : Env) (w : World) (message : string) :
  commits (snd (createCommit env w message)) = commits w
  \/ commits (snd (createCommit env w message))
     = (commits w ++ [(message, author env)])%list.
Proof.
  unfold createCommit.
  destruct (env_Getwd env) as [wd|e]; [|now left].
  destruct (env_PlainOpen env wd); [now left|].
  destruct (env_Worktree env); [now left|].
  right. fold (author env).
  destruct (env_Commit env message (author env)); reflexivity.
Qed.

Lemma createCommit_opened (env : Env) (w : World) (message wd : string) :
  env_Getwd env = inl wd -> env_PlainOpen env wd = None ->
  env_Worktree env = None ->
  commits (snd (createCommit env w message))
  = (commits w ++ [(message, author env)])%list.
Proof.
  intros H1 H2 H3. unfold createCommit. rewrite H1, H2, H3.
  fold (author env).
  destruct (env_Commit env message (author env)); reflexivity.
Qed.

Lemma printBanner_commits (w : World) (title : string) :
  commits (printBanner w title) = commits w.
Proof. reflexivity. Qed.

(** C8. With the apply flag set and a generated message [msg], the message
    that [runCommit] hands to [createCommit], and [createCommit] to
    [worktree.Commit], is [strings.TrimSpace(msg)]: the repository receives
    what [createCommit] writes for the trimmed message, that is at most one
    commit, with the trimmed message, and exactly that commit once the
    repository and its worktree open. *)
Theorem C8_commit_message_is_trimmed
    (env : Env) (w : World) (config : Config) (changes msg out : string) :
  generates env w config changes msg out ->
  commits (snd (runCommit env true w))
  = commits (snd (createCommit env {| stdout := out; commits := commits w |}
                               (strings.TrimSpace msg)))
  /\ (commits (snd (runCommit env true w)) = commits w
      \/ commits (snd (runCommit env true w))
         = (commits w ++ [(strings.TrimSpace msg, author env)])%list)
  /\ (forall wd, env_Getwd env = inl wd -> env_PlainOpen env wd = None ->
                 env_Worktree env = None ->
                 commits (snd (runCommit env true w))
                 = (commits w ++ [(strings.TrimSpace msg, author env)])%list).
Proof.
  intros Hg.
  assert (H : commits (snd (runCommit env true w))
              = commits (snd (createCommit env
                                {| stdout := out; commits := commits w |}
                                (strings.TrimSpace msg)))).
  { rewrite (runCommit_generated _ _ _ _ _ _ _ Hg). cbv zeta iota.
    destruct (createCommit _ _ _) as [[commitID [err|]] w2]; reflexivity. }
  rewrite H. split; [reflexivity|]. split.
  - apply (createCommit_commits env {| stdout := out; commits := commits w |}).
  - intros wd H1 H2 H3.
    apply (createCommit_opened env {| stdout := out; commits := commits w |}
             _ wd H1 H2 H3).
Qed.

Lemma env_hi_generates :
  generates env_hi empty_world config_hi "diff" ("hi" ++ NL) out_hi.
Proof.
  split; [reflexivity|]. split; [discriminate|]. split; [reflexivity|].
  vm_compute. reflexivity.
Qed.

Lemma C8_commit_message_is_trimmed_witness :
  commits (snd (runCommit env_hi true empty_world))
  = [("hi", {| Name := "user.name"; Email := "user.email"; When := 0 |})]
  /\ strings.TrimSpace ("hi" ++ NL) <> "hi" ++ NL.
Proof.
  split.
  - destruct (C8_commit_message_is_trimmed env_hi empty_world config_hi
                "diff" ("hi" ++ NL) out_hi env_hi_generates) as [_ [_ H]].
    rewrite (H "/repo"); [vm_compute; reflexivity | reflexivity ..].
  - vm_compute. discriminate.
Defined.

(** C9. Without the apply flag [runCommit] never calls [worktree.Commit]:
    the repository is after the run what it was before, whatever happens in
    the run; and once the message is generated the run ends without error,
    with the output of the generation and nothing else. *)
Theorem C9_no_commit_without_apply (env : Env) (w : World) :
  commits (snd (runCommit env false w)) = commits w
  /\ (forall config changes msg out,
         generates env w config changes msg out ->
         runCommit env false w
         = (None, {| stdout := out; commits := commits w |})).
Proof.
  split.
  - unfold runCommit.
    destruct (env_loadConfig env) as [config|e]; [|reflexivity].
    destruct (String.eqb (APIKey (DeepSeek config)) ""); [reflexivity|].
    destruct (getStagedChanges env) as [changes [e|]]; [reflexivity|].
    cbv zeta.
    destruct (streamCommitMessage _ _ _ _ _) as [[m [e|]] o]; reflexivity.
  - intros config changes msg out Hg.
    now rewrite (runCommit_generated _ _ _ _ _ _ _ Hg).
Qed.

Lemma C9_no_commit_without_apply_witness :
  runCommit env_hi false empty_world
  = (None, {| stdout := out_hi; commits := [] |}).
Proof.
  exact (proj2 (C9_no_commit_without_apply env_hi empty_world)
               config_hi "diff" ("hi" ++ NL) out_hi env_hi_generates).
Defined.

(** ** The request body *)

(** C10. The request body serialized for an absent temperature has no
    [temperature] member.  For a present temperature, every body that
    [json.Marshal] returns has the member, with exactly the configured value;
    it returns one whenever the temperature is a number (for NaN and the
    infinities it fails and there is no body). *)
Theorem C10_temperature_omitempty (messages : list ChatMessage) :
  (exists fields,
      Marshal_ChatRequest (chat_request messages None) = inl (JObject fields)
      /\ jfield "temperature" fields = None)
  /\ (forall (t : float32) (body : jtext),
         Marshal_ChatRequest (chat_request messages (Some t)) = inl body ->
         exists fields,
           body = JObject fields
           /\ jfield "temperature" fields = Some (JFloat32 t))
  /\ (forall t : float32,
         is_number t = true ->
         exists body,
           Marshal_ChatRequest (chat_request messages (Some t)) = inl body)
  /\ (forall t : float32,
         is_number t = false ->
         exists err,
           Marshal_ChatRequest (chat_request messages (Some t)) = inr err).
Proof.
  split; [|split; [|split]].
  - eexists. split; reflexivity.
  - intros t body H.
    destruct t as [s|[|]| |s m e]; try discriminate H;
      injection H as <-; eexists; split; reflexivity.
  - intros t Ht. destruct t as [s| | |s m e]; try discriminate;
      (eexists; reflexivity).
  - intros t Ht. destruct t as [s|[|]| |s m e]; try discriminate;
      (eexists; reflexivity).
Qed.

Lemma C10_temperature_omitempty_witness :
  exists fields,
    Marshal_ChatRequest (chat_request (buildPromptMessages "diff" None)
                                      (Some temperature_075))
    = inl (JObject fields)
    /\ jfield "temperature" fields = Some (JFloat32 temperature_075).
Proof.
  destruct (C10_temperature_omitempty (buildPromptMessages "diff" None))
    as [_ [Hcarries [Hnumber _]]].
  destruct (Hnumber temperature_075 eq_refl) as [body Hbody].
  destruct (Hcarries temperature_075 body Hbody) as [fields [-> Hfield]].
  exists fields. split; [exact Hbody | exact Hfield].
Defined.

(** ** The lines of the received text *)















(** ** More properties of [streamCommitMessage] *)






Lemma line_chunk_ignored (line : string) :
  strings.HasPrefix line "data:" = false
  \/ line = "data: [DONE]"
  \/ strings.TrimSpace (drop 5 line) = "" ->
  line_chunk line = None.
Proof.
  unfold line_chunk. intros [H | [H | H]].
  - now rewrite H.
  - subst line. reflexivity.
  - rewrite H.
    now destruct (strings.HasPrefix line "data:"
                  && negb (String.eqb line "data: [DONE]")).
Qed.

(** X4. A line that does not start with [data:], the line [data: [DONE]],
    and a data line with nothing but white space after the marker are
    ignored wherever they stand: the run is the run without the line.  The
    [DONE] line does not end the stream: the events after it still count. *)
Theorem X4_ignored_lines
    (env1 env2 : Env) (out apiKey : string) (messages : list ChatMessage)
    (temperature : option float32) (pre post : list string) (line : string)
    (err : option error) :
  strings.HasPrefix line "data:" = false
  \/ line = "data: [DONE]"
  \/ strings.TrimSpace (drop 5 line) = "" ->
  delivers env1 apiKey messages temperature (pre ++ line :: post)%list err ->
  delivers env2 apiKey messages temperature (pre ++ post)%list err ->
  streamCommitMessage env1 out apiKey messages temperature
  = streamCommitMessage env2 out apiKey messages temperature.
Proof.
  intros Hline H1 H2.
  rewrite (streamCommitMessage_delivered _ _ _ _ _ _ _ H1).
  rewrite (streamCommitMessage_delivered _ _ _ _ _ _ _ H2).
  rewrite !fold_left_app. cbn [fold_left].
  now rewrite (process_line_skipped _ line (line_chunk_ignored _ Hline)).
Qed.

Lemma X4_ignored_lines_witness :
  streamCommitMessage
    (env_serving (ok_response [data_event "before"; "data: [DONE]";
                               data_event " and after"] None))
    "" "key" [] None
  = (("before and after", None), "| before and after" ++ NL).
Proof.
  rewrite (X4_ignored_lines _
             (env_serving (ok_response [data_event "before";
                                        data_event " and after"] None))
             "" "key" [] None
             [data_event "before"] [data_event " and after"] "data: [DONE]" None).
  - vm_compute. reflexivity.
  - right. left. reflexivity.
  - apply env_serving_delivers.
  - apply env_serving_delivers.
Defined.

(** X5. Whenever [streamCommitMessage] returns an error, whichever of its
    four failures it is (serialization, transport, status, scanner), the
    message it returns with it is empty. *)
Theorem X5_no_message_with_an_error
    (env : Env) (out apiKey : string) (messages : list ChatMessage)
    (temperature : option float32) (msg out' : string) (e : error) :
  streamCommitMessage env out apiKey messages temperature
  = ((msg, Some e), out') ->
  msg = "".
Proof.
  unfold streamCommitMessage, assemble.
  destruct (Marshal_ChatRequest _) as [jsonData|e1]; [|congruence].
  cbv zeta. destruct (env_Do env _) as [resp|e2]; [|congruence].
  destruct (negb (StatusCode resp =? StatusOK)); [congruence|].
  destruct (ScanErr (Body resp)); congruence.
Qed.

Lemma X5_no_message_with_an_error_witness :
  fst (fst (streamCommitMessage
              (env_serving (ok_response [data_event "text"]
                              (Some (errorString "reset"))))
              "" "key" [] None)) = "".
Proof.
  apply (X5_no_message_with_an_error
           (env_serving (ok_response [data_event "text"]
                           (Some (errorString "reset"))))
           "" "key" [] None _ ("| text" ++ NL) (errorString "reset")).
  vm_compute. reflexivity.
Defined.

(** X6. A read failure loses the returned message but not the output: the
    run prints what the same lines print in a run that ends well, the text
    after the last line feed included. *)
Theorem X6_read_failure_prints_the_same
    (env1 env2 : Env) (out apiKey : string) (messages : list ChatMessage)
    (temperature : option float32) (lines : list string) (e : error) :
  delivers env1 apiKey messages temperature lines (Some e) ->
  delivers env2 apiKey messages temperature lines None ->
  snd (streamCommitMessage env1 out apiKey messages temperature)
  = snd (streamCommitMessage env2 out apiKey messages temperature).
Proof.
  intros H1 H2.
  rewrite (streamCommitMessage_delivered _ _ _ _ _ _ _ H1).
  rewrite (streamCommitMessage_delivered _ _ _ _ _ _ _ H2).
  reflexivity.
Qed.

Lemma X6_read_failure_prints_the_same_witness :
  snd (streamCommitMessage
         (env_serving (ok_response [data_event "seen\nalso seen"]
                         (Some (errorString "reset"))))
         "" "key" [] None)
  = snd (streamCommitMessage
           (env_serving (ok_response [data_event "seen\nalso seen"] None))
           "" "key" [] None).
Proof.
  apply (X6_read_failure_prints_the_same _ _ "" "key" [] None
           [data_event "seen\nalso seen"] (errorString "reset"));
    apply env_serving_delivers.
Defined.

(** X7. A temperature that is NaN or an infinity makes [streamCommitMessage]
    fail on the serialization of the request, in every world: whatever the
    server would answer, the result is the empty message and the error of
    [json.Marshal], and nothing is printed. *)
Theorem X7_unsupported_temperature
    (env : Env) (out apiKey : string) (messages : list ChatMessage)
    (t : float32) :
  is_number t = false ->
  streamCommitMessage env out apiKey messages (Some t)
  = (("", Some (errorString ("json: unsupported value: "
                             ++ not_a_number_text t))), out).
Proof.
  intros Ht. unfold streamCommitMessage.
  destruct t as [s|[|]| |s m e]; try discriminate Ht; reflexivity.
Qed.

Lemma X7_unsupported_temperature_witness :
  streamCommitMessage env_hi "" "key" [] (Some S754_nan)
  = (("", Some (errorString "json: unsupported value: NaN")), "").
Proof.
  exact (X7_unsupported_temperature env_hi "" "key" [] S754_nan eq_refl).
Defined.

(** ** [printBanner] and [buildPromptMessages] *)

Lemma length_Repeat_1 (c : ascii) (n : nat) :
  String.length (Repeat (str1 c) n) = n.
Proof. induction n as [|n IH]; cbn; [reflexivity | now rewrite IH]. Qed.

Lemma print_print (w : World) (s t : string) :
  print (print w s) t = print w (s ++ t).
Proof. unfold print. cbn. now rewrite append_assoc. Qed.

(** X8. For a title of at most 100 bytes [printBanner] prints three lines of
    one and the same width, the title's length plus eight kept between 60 and
    100: a bar of [=], the title between blanks, the bar again.  The title is
    centred: the blanks after it are as many as the blanks before it, or one
    more.  Nothing else in the world changes. *)
Theorem X8_printBanner_geometry (w : World) (title : string) :
  len title <= 100 ->
  let W := Z.max 60 (Z.min 100 (len title + 8)) in
  let left := (W - len title) / 2 in
  let right := W - left - len title in
  let bar := Repeat "=" (Z.to_nat W) in
  let middle := Repeat " " (Z.to_nat left) ++ title ++ Repeat " " (Z.to_nat right) in
  printBanner w title = print w (bar ++ NL ++ middle ++ NL ++ bar ++ NL)
  /\ len bar = W
  /\ len middle = W
  /\ 0 <= left <= right
  /\ right <= left + 1.
Proof.
  intros Hlen. cbv zeta.
  assert (Hlen0 : 0 <= len title) by (unfold len; lia).
  set (W := Z.max 60 (Z.min 100 (len title + 8))).
  assert (HW : 60 <= W <= 100 /\ len title <= W) by (unfold W; lia).
  assert (Hleft : 0 <= (W - len title) / 2) by (apply Z.div_pos; lia).
  pose proof (Z.div_mod (W - len title) 2 ltac:(lia)) as Hdm.
  pose proof (Z.mod_pos_bound (W - len title) 2 ltac:(lia)) as Hm.
  split; [|split; [|split; [|split]]].
  - unfold printBanner. cbv zeta.
    replace (if (60 <? len title + 4 * 2) && (len title + 4 * 2 <? 100)
             then len title + 4 * 2
             else if len title + 4 * 2 <=? 60 then 60 else 100) with W.
    + rewrite Z.quot_div_nonneg by lia.
      rewrite !print_print. f_equal. now rewrite !append_assoc.
    + unfold W.
      destruct (60 <? len title + 4 * 2) eqn:E1;
        destruct (len title + 4 * 2 <? 100) eqn:E2;
        destruct (len title + 4 * 2 <=? 60) eqn:E3; cbn [andb];
        try apply Z.ltb_lt in E1; try apply Z.ltb_ge in E1;
        try apply Z.ltb_lt in E2; try apply Z.ltb_ge in E2;
        try apply Z.leb_le in E3; try apply Z.leb_gt in E3; lia.
  - unfold len. change "=" with (str1 "="%char).
    rewrite length_Repeat_1. lia.
  - unfold len. rewrite !length_append. change " " with (str1 " "%char).
    rewrite !length_Repeat_1. unfold len in *. lia.
  - lia.
  - lia.
Qed.

Lemma X8_printBanner_geometry_witness :
  stdout (printBanner empty_world "AI Suggested Commit Message")
  = Repeat "=" 60 ++ NL
    ++ Repeat " " 16 ++ "AI Suggested Commit Message" ++ Repeat " " 17 ++ NL
    ++ Repeat "=" 60 ++ NL.
Proof.
  destruct (X8_printBanner_geometry empty_world "AI Suggested Commit Message")
    as [H _].
  - vm_compute. discriminate.
  - rewrite H. vm_compute. reflexivity.
Defined.

(** X9. [buildPromptMessages] always builds two messages, for the roles
    [system] and [user], in this order.  The user message carries the changes
    whole, so that different changes give different messages; a custom prompt
    that is not empty is the system message as it is, and an empty custom
    prompt gives what no custom prompt gives. *)
Theorem X9_buildPromptMessages (changes : string) :
  (forall promptOpt,
      map Role (buildPromptMessages changes promptOpt) = ["system"; "user"])
  /\ (forall promptOpt changes',
         buildPromptMessages changes promptOpt
         = buildPromptMessages changes' promptOpt ->
         changes = changes')
  /\ (forall prompt,
         prompt <> "" ->
         map MessageContent (buildPromptMessages changes (Some prompt))
         = [prompt; "Here are my current Git changes:" ++ NL ++ changes])
  /\ buildPromptMessages changes (Some "") = buildPromptMessages changes None.
Proof.
  split; [|split; [|split]].
  - intros promptOpt. reflexivity.
  - intros promptOpt changes' H. unfold buildPromptMessages in H.
    injection H as H. exact H.
  - intros prompt Hne. unfold buildPromptMessages.
    apply String.eqb_neq in Hne. rewrite Hne. reflexivity.
  - reflexivity.
Qed.

Lemma X9_buildPromptMessages_witness :
  map MessageContent (buildPromptMessages "diff" (Some "Be brief."))
  = ["Be brief."; "Here are my current Git changes:" ++ NL ++ "diff"].
Proof.
  apply (proj1 (proj2 (proj2 (X9_buildPromptMessages "diff")))).
  discriminate.
Defined.

(** ** More properties of [runCommit] and [createCommit] *)

(** X10. With nothing staged ([git diff --cached] prints nothing),
    [runCommit] fails with the text [failed to get staged changes: no staged
    changes found] before anything is printed: the world is what it was,
    with or without the apply flag and whatever the server would answer. *)
Theorem X10_nothing_staged
    (env : Env) (applyFlag : bool) (w : World) (config : Config) :
  env_loadConfig env = inl config ->
  APIKey (DeepSeek config) <> "" ->
  env_git_diff_cached env = inl "" ->
  runCommit env applyFlag w
  = (Some (wrapError "failed to get staged changes: no staged changes found"
                     (errorString "no staged changes found")), w).
Proof.
  intros Hc Hk Hd. unfold runCommit, getStagedChanges.
  rewrite Hc, Hd. apply String.eqb_neq in Hk. rewrite Hk. reflexivity.
Qed.

Lemma X10_nothing_staged_witness :
  runCommit env_nothing_staged true empty_world
  = (Some (wrapError "failed to get staged changes: no staged changes found"
                     (errorString "no staged changes found")), empty_world).
Proof.
  apply (X10_nothing_staged env_nothing_staged true empty_world config_hi).
  - reflexivity.
  - discriminate.
  - reflexivity.
Defined.

(** X11. With an empty API key in the configuration [runCommit] fails at
    once, with the text that asks for the key: git is not asked for the
    changes, no request is made, nothing is printed and nothing committed. *)
Theorem X11_missing_api_key
    (env : Env) (applyFlag : bool) (w : World) (config : Config) :
  env_loadConfig env = inl config ->
  APIKey (DeepSeek config) = "" ->
  runCommit env applyFlag w
  = (Some (errorString
       "error: No DeepSeek API key found. Please set your API key in the config file"),
     w).
Proof.
  intros Hc Hk. unfold runCommit. rewrite Hc, Hk. reflexivity.
Qed.

Lemma X11_missing_api_key_witness :
  snd (runCommit env_no_key true empty_world) = empty_world.
Proof.
  rewrite (X11_missing_api_key env_no_key true empty_world
             {| DeepSeek := {| APIKey := ""; Temperature := None;
                               Prompt := None |} |});
    reflexivity.
Defined.

(** X12. A run of [runCommit] calls [worktree.Commit] at most once, in every
    world and with either value of the flag, and signs the commit with the
    identity of the git configuration. *)
Theorem X12_at_most_one_commit (env : Env) (applyFlag : bool) (w : World) :
  commits (snd (runCommit env applyFlag w)) = commits w
  \/ exists message,
       commits (snd (runCommit env applyFlag w))
       = (commits w ++ [(message, author env)])%list.
Proof.
  unfold runCommit.
  destruct (env_loadConfig env) as [config|e]; [|now left].
  destruct (String.eqb (APIKey (DeepSeek config)) ""); [now left|].
  destruct (getStagedChanges env) as [changes [e|]]; [now left|].
  cbv zeta.
  destruct (streamCommitMessage _ _ _ _ _) as [[m [e|]] o]; [now left|].
  destruct applyFlag; [|now left].
  pose proof (createCommit_commits env
                {| stdout := o;
                   commits := commits (printBanner w "AI Suggested Commit Message") |}
                (strings.TrimSpace m)) as H.
  destruct (createCommit _ _ _) as [[commitID [e|]] w2]; cbn [snd] in *;
    (destruct H as [H | H]; [left | right; eexists]; exact H).
Qed.

(** X13. When the server rejects the request (a status other than 200),
    [runCommit] returns an error whose text is [failed to generate commit
    message: API failed: ] followed by the response body; only the first
    banner has been printed, and nothing is committed even with the apply
    flag set. *)
Theorem X13_rejected_request
    (env : Env) (applyFlag : bool) (w : World) (config : Config)
    (changes : string) (resp : Response) :
  env_loadConfig env = inl config ->
  APIKey (DeepSeek config) <> "" ->
  getStagedChanges env = (changes, None) ->
  answers env (APIKey (DeepSeek config))
          (buildPromptMessages changes (Prompt (DeepSeek config)))
          (Temperature (DeepSeek config)) resp ->
  StatusCode resp <> StatusOK ->
  exists err,
    runCommit env applyFlag w
    = (Some err, printBanner w "AI Suggested Commit Message")
    /\ Error err = "failed to generate commit message: API failed: "
                   ++ ReadAll (Body resp).
Proof.
  intros Hc Hk Hs Hans Hst. unfold runCommit. rewrite Hc.
  apply String.eqb_neq in Hk. rewrite Hk, Hs. cbv zeta.
  rewrite (streamCommitMessage_answered _ _ _ _ _ _ Hans).
  apply Z.eqb_neq in Hst. rewrite Hst. cbn [negb].
  eexists. split; reflexivity.
Qed.

Lemma X13_rejected_request_witness :
  exists err,
    runCommit (env_working (error_response 401 "bad key")) true empty_world
    = (Some err, printBanner empty_world "AI Suggested Commit Message")
    /\ Error err = "failed to generate commit message: API failed: bad key".
Proof.
  apply (X13_rejected_request (env_working (error_response 401 "bad key"))
           true empty_world config_hi "diff" (error_response 401 "bad key")).
  - reflexivity.
  - discriminate.
  - reflexivity.
  - eexists. split; reflexivity.
  - discriminate.
Defined.

(** X14. With the apply flag, a generated message and a repository that
    opens: if [worktree.Commit] returns a hash, [runCommit] returns no error
    and prints, after the output of the generation, the second banner and the
    line [Commit ID: ] with the hash, followed by an empty line; if it
    returns an error, [runCommit] returns it under the text [failed to create
    commit: ] and prints nothing more. *)
Theorem X14_apply_outcome
    (env : Env) (w : World) (config : Config) (changes msg out wd : string) :
  generates env w config changes msg out ->
  env_Getwd env = inl wd -> env_PlainOpen env wd = None ->
  env_Worktree env = None ->
  let w1 := {| stdout := out;
               commits := (commits w
                           ++ [(strings.TrimSpace msg, author env)])%list |} in
  match env_Commit env (strings.TrimSpace msg) (author env) with
  | inl hash =>
    runCommit env true w
    = (None, print (printBanner w1 (check_mark ++ " Commit Successful"))
                   ("Commit ID: " ++ hash ++ NL ++ NL))
  | inr e =>
    runCommit env true w
    = (Some (wrapError ("failed to create commit: " ++ Error e) e), w1)
  end.
Proof.
  intros Hg H1 H2 H3. cbv zeta.
  rewrite (runCommit_generated _ _ _ _ _ _ _ Hg). cbv zeta iota.
  unfold createCommit. rewrite H1, H2, H3. fold (author env).
  cbn [stdout commits].
  destruct (env_Commit env (strings.TrimSpace msg) (author env)); reflexivity.
Qed.

Lemma X14_apply_outcome_witness :
  fst (runCommit env_hi true empty_world) = None
  /\ stdout (snd (runCommit env_hi true empty_world))
     = out_hi
       ++ Repeat "=" 60 ++ NL
       ++ Repeat " " 19 ++ check_mark ++ " Commit Successful"
       ++ Repeat " " 20 ++ NL
       ++ Repeat "=" 60 ++ NL
       ++ "Commit ID: abc123" ++ NL ++ NL.
Proof.
  pose proof (X14_apply_outcome env_hi empty_world config_hi "diff"
                ("hi" ++ NL) out_hi "/repo" env_hi_generates
                eq_refl eq_refl eq_refl) as H.
  cbv zeta in H.
  change (env_Commit env_hi (strings.TrimSpace ("hi" ++ NL)) (author env_hi))
    with (@inl string error "abc123") in H.
  cbv iota in H. rewrite H. split; [reflexivity|].
  vm_compute. reflexivity.
Defined.






(** X16. A git configuration without identity does not stop the commit:
    when [git config] fails for every key and the repository opens,
    [createCommit] calls [worktree.Commit] with the message and the empty
    name and e-mail, and returns what that call returns. *)
Theorem X16_commit_without_identity
    (env : Env) (w : World) (message wd : string) :
  (forall key, exists e, env_git_config env key = inr e) ->
  env_Getwd env = inl wd -> env_PlainOpen env wd = None ->
  env_Worktree env = None ->
  let anonymous := {| Name := ""; Email := ""; When := env_Now env |} in
  commits (snd (createCommit env w message))
  = (commits w ++ [(message, anonymous)])%list
  /\ fst (createCommit env w message)
     = match env_Commit env message anonymous with
       | inl hash => (hash, None)
       | inr e => ("", Some e)
       end.
Proof.
  intros Hcfg H1 H2 H3. cbv zeta.
  unfold createCommit, getGitConfig. rewrite H1, H2, H3.
  destruct (Hcfg "user.name") as [e1 ->]. destruct (Hcfg "user.email") as [e2 ->].
  destruct (env_Commit env message _); split; reflexivity.
Qed.

Lemma X16_commit_without_identity_witness :
  commits (snd (createCommit env_anonymous empty_world "message"))
  = [("message", {| Name := ""; Email := ""; When := 0 |})].
Proof.
  apply (X16_commit_without_identity env_anonymous empty_world
           "message" "/repo").
  - intros key. eexists. reflexivity.
  - reflexivity.
  - reflexivity.
  - reflexivity.
Defined.
